(* ===== verification/_CoqProject ===== *)
-Q . S2P
Prelude.v
PyRuntime.v
Numpy.v
Templates.v
Preprocess.v
Matcher.v
Solver.v
Driver.v
Login.v
Marks.v
Cli.v
