(* ===== verification/Prelude.v ===== *)
(** * A verification development of au-scraper ([src/scraper-script.py])

    ** The program

    [src/scraper-script.py] logs a student into the Anna University exam
    portal through Selenium and reads the marks table.  Its parts:

    - [CaptchaSolver] (lines 23-110).  [__init__] loads the template
      library ([_load_test_set]: a single 10x8 bitmap of the digit 0, scaled
      to 0/255) and the label string [char_map].  [_preprocess_image] decodes
      the image with PIL, converts it to grey, resizes it to 70x20 and
      thresholds it ([(m > 128) * 255]).  [_extract_character] slices
      columns [10p, 10p + 10) of all 20 rows.  [_calculate_match_percentage]
      counts equal pixels with numpy's [==].  [solve] runs, for the
      positions 0..5, a loop over the library that keeps the first strictly
      greater percentage, warns when the best one is below 50, and joins the
      labels.
    - [AUInfoExtractor] (lines 112-244).  [login] makes up to [max_retries]
      attempts.  Each attempt loads the page, waits for the form, saves the
      captcha element's screenshot to [temp_captcha_<attempt>.png], solves
      it, fills in and submits the form, and waits for the dashboard.  This
      runs inside [try / except TimeoutException / except Exception /
      finally], and the [finally] block deletes the file at [captcha_path].
      [setup_driver] starts Chrome, [extract_marks] reads the marks table
      (every row after the header, six cells each), and [extract_info]
      composes setup, [login] and [extract_marks], quitting the driver in
      its [finally] block.
    - [main] (lines 246-277): parses the command line, runs
      [extract_info], prints the subjects or writes them as JSON, and
      exits with status 1 on any error.

    Data flows one way.  The driver yields the screenshot's bytes, the
    filesystem stores them, the solver reads them back, and its string is
    typed into the form.  The shared mutable resource is the working
    directory.

    ** Files, and how they correspond to the code

    - [Prelude] (this file): the scope [py_scope], the hint databases
      [scraper] / [scraper_rw], the tactic [vm_decide], and lemmas on
      boolean counts, [take]/[drop] and Python strings.
    - [PyRuntime]: the Python semantics the code relies on.  Exceptions
      are the inductive [exn].  A statement is [SE S A := S -> S * res A], a
      state-and-exception monad with [x <- c ;; k] notation.  [py_try] is
      [try/except/finally]: an exception raised in [finally] replaces the
      pending outcome.  [py_for] / [py_range] is a [for] loop with
      [continue] / [return].  [log] is the logger, a list of [log_rec], one
      constructor of [log_msg] per call site.  [files] is the working
      directory as a [gmap] from names to bytes.  The file also holds a
      Hoare logic ([hoare], [hoare_bind], [hoare_try], [hoare_for]), frame
      conditions ([se_keeps]) and result predicates ([se_returns]).  Its
      relational triples [bi_hoare] run one statement from two related
      states and conclude equal results and related final states; they
      carry the stale-file argument.
    - [Numpy]: 2-D arrays as lists of rows.  It models [.size], column
      slicing (Python clamps out-of-range slices), [(m > t) * v],
      broadcasting [==] (incompatible shapes raise [ValueError], as numpy
      >= 1.25 does), [np.sum], and [(k / n) * 100].
    - [Templates]: [template_0], [load_test_set], the [CaptchaSolver] record
      and [CaptchaSolver_init].  It also holds a test library of 13
      cell-shaped glyphs ([cell_library], [deployed_solver]).  These are
      test data, not code.
    - [Preprocess]: PIL is the type class [ImageCodec] ([decode_L] is
      [Image.open(..).convert('L')], [resize] is [img.resize]).  Its law
      [ImageCodecLaws] says a resized image has the requested shape.  The
      file defines [preprocess_image] and a concrete codec [raw_codec]
      that discharges the law and runs the examples.
    - [Matcher]: [extract_character], [calculate_match_percentage], the
      library loop [classify_loop] / [classify_cell], and its
      specification [first_best].
    - [Solver]: [solve_position], [solve_loop] and [solve].
    - [Driver]: Selenium as the type class [Driver D] over the browser's
      state: get, explicit wait, find_element, element PNG, send_keys,
      click.  Each operation may raise any [exn].  [drv_event] is the trace
      of calls.  [scripted] is a concrete driver.
    - [Login]: the [AUInfoExtractor] record and its [__init__].  The state
      of a call, [login_state], holds the driver, the directory, the log,
      the call trace and the local [captcha_path] ([None] until assigned).
      One attempt, [login_attempt], is a [py_try] over three blocks
      ([attempt_navigate] 139-146, [attempt_capture] 147-148,
      [attempt_submit] 150-166), with handler [attempt_handler] (168-178)
      and finally block [attempt_finally] (180-182).  [login] is the loop.
    - [Marks]: [extract_marks] (with [select_semester], [read_rows],
      [read_row], [col_text]: [cols[i]] raises [IndexError] past the
      end), [setup_driver], [extract_info] with [extract_info_finally],
      and [main] / [main_with] with [output_marks].  Their state
      [app_state] extends [login_state] with the local [driver] of
      [extract_info] (assigned or not) and standard output.  [sys.exit]
      raises [SystemExit]; [json.dump] is a parameter.
    - [Cli]: the parser of lines 247-253 as CPython 3.11's argparse runs
      it ([classify_arg], [classify], [consume], [finish], [parse_args]):
      abbreviations, [--opt=value], the ["--"] separator, negative
      numbers, [-h] (exit 0) and errors (exit 2).  [main_argv] is [main]
      with its parser, and [run_script] is lines 279-280 with the exit
      status of the process.  The model agrees with argparse on 1500
      random command lines built from tricky arguments.

    The solver reaches the filesystem only through its argument [fs]:
    [run_solve] passes the current directory and runs [solve] on the log
    field.  The login theorems are proved for every [Driver] instance and
    every [ImageCodec] (for some, every lawful codec), so they hold for
    any behaviour of the browser and of PIL.

    ** What is proved (claim ids as in the manifest)

    - As shipped, the tool always fails: for every browser, codec,
      encoder and command line, [main] exits with status 1, prints
      nothing, leaves no file, and logs the final error twice (C1).
    - As shipped, the program cannot log in.  With the shipped library,
      [solve] always raises, because every 20x10 cell is compared with the
      10x8 template (C3, C14).  So [login] never fills in or submits the
      form and always raises when [max_retries >= 1] (C2).  Spec scenario
      8 ends with a [ValueError] after three attempts (an example of
      [Login]).
    - Login orchestration, for any driver and codec:
      - no captured image is left in the directory, on any exit path (C4);
      - at most [max_retries] page loads (C11);
      - [login] never returns [False] when [max_retries >= 1] (C10);
      - if the first attempt fails before [captcha_path] is assigned,
        [finally] raises [UnboundLocalError] and nothing is retried (C5);
      - nothing in the directory before the call can change what
        [login] returns, logs or does to the browser: each attempt solves
        the screenshot it has just written (C24);
      - as shipped, on a browser that always serves the form and the
        captcha, exactly [max_retries] attempts are made before the last
        attempt's exception propagates (C20, spec property 6).
    - Matching: the percentage lies in [0, 100], is 100 exactly for
      identical arrays and 0 exactly for arrays with no equal pixel (C13).
      The library loop refines [first_best]: the first template of
      greatest positive score wins (C6).  Cells are 20x10 for positions
      up to 6 and 20x0 beyond, and no error is raised (C17).  A library
      whose first best template has an index of at least 36 makes
      [char_map[idx]] raise [IndexError] (C21).
    - Solving with a library of 20x10 templates: [solve] returns the
      concatenation of the six [first_best] labels and warns exactly below
      50 (C7).  The result has at most six characters, and exactly six
      only if every cell has a positively scoring template (C16).  An
      empty library gives [""] rather than a configuration error (C18).
    - Marks and the command line: [extract_info] quits the browser last
      whenever it started (C8); on a table whose data rows have six
      cells [extract_marks] returns one record per row after the header
      (C9), and a shorter row raises a logged [IndexError] that discards
      the whole table (C12).
    - Command line: the [--opt=value] form of any arguments parses back
      to them (C22), and the separated form does when no value starts
      with ['-'] (C23).
    - Preprocessing: a result is 20x70 with entries 0 or 255 (C15).  A
      missing or undecodable file raises, and the error is logged (C19).

    Scenario examples, evaluated by [vm_compute], run concrete inputs
    through the model: A1B2C3 ([Solver]); scenario 8 with a working and
    with the shipped library ([Login]); [main] printing and saving the
    marks ([Marks]); a value starting with ['-'] rejected with status 2
    ([Cli]).

    ** Bounds and fuel

    No definition needs fuel.  Every loop of the program iterates over a
    finite list ([range(6)], the template list, [range(max_retries)]), so
    each one is a structural recursion and every definition is total.  A
    negative [max_retries] gives an empty [range], as in Python.  Python's
    unbounded integers are [Z].  Numpy's float64 percentage is an exact
    rational: with at most 200 pixels per cell, distinct counts give
    distinct floats, so the comparisons the code makes agree.

    ** Not modelled, and why

    - The Chrome options of [setup_driver] (they configure the browser
      the [Driver] interface abstracts), the bytes [json.dump] produces
      (a parameter of [main]), the help text's layout and argparse's
      messages on stderr.
    - PIL's decoder and resampling, and Selenium's browser: these are
      interfaces ([ImageCodec], [Driver]), not implementations.
    - The [OSError] branch of Selenium's [screenshot], which returns
      [False] without writing: the model's write always succeeds.
    - Logging timestamps and formats: only the level and the message are
      kept.

    ** Plan for later sittings

    The program is modelled.  What remains is optional: [setup_driver]'s
    options, [argparse] and the JSON text, should a property need them. *)

From stdpp Require Export base list gmap strings.
From Stdlib Require Export Ascii.
From Stdlib Require Export ZArith Lia.

Declare Scope py_scope.
Delimit Scope py_scope with py.

Create HintDb scraper.
Create Rewrite HintDb scraper_rw.

(** ** Generic lemmas on lists shared by the components *)

(** Counting the [true] entries of a boolean list ([np.sum] of a boolean
    array). *)
Fixpoint count_true (l : list bool) : nat :=
  match l with
  | [] => 0
  | b :: l' => (if b then 1 else 0) + count_true l'
  end.

Lemma count_true_le (l : list bool) : count_true l ≤ length l.
Proof. induction l as [|[] l IH]; simpl; lia. Qed.

Lemma count_true_all (l : list bool) :
  count_true l = length l ↔ Forall (λ b : bool, b = true) l.
Proof.
  induction l as [|b l IH]; simpl; [split; auto|].
  pose proof (count_true_le l).
  destruct b; rewrite Forall_cons, <- IH; split; intros H';
    solve [lia | by destruct H' | split; [done | lia]].
Qed.

Lemma count_true_zero (l : list bool) :
  count_true l = 0 ↔ Forall (λ b : bool, b = false) l.
Proof.
  induction l as [|b l IH]; simpl; [split; auto|].
  destruct b; rewrite Forall_cons, <- IH; split; intros H';
    solve [lia | by destruct H' | split; [done | lia]].
Qed.

Lemma count_true_app (l1 l2 : list bool) :
  count_true (l1 ++ l2) = count_true l1 + count_true l2.
Proof. induction l1 as [|b l1 IH]; simpl; lia. Qed.

#[export] Hint Resolve count_true_le : scraper.
#[export] Hint Rewrite count_true_app : scraper_rw.

(** [take]/[drop] on a list long enough for the window. *)
Lemma length_take_drop {A} (a n : nat) (l : list A) :
  length (take n (drop a l)) = min n (length l - a).
Proof. rewrite length_take, length_drop. lia. Qed.

#[export] Hint Rewrite @length_take_drop : scraper_rw.

(** ** Tactics *)

(** Prove a decidable proposition on closed terms by evaluation. *)
Ltac vm_decide := apply (bool_decide_eq_true_1 _); vm_compute; reflexivity.

(** Split a hypothesis [Forall P (x :: l)] or a conjunction, and rewrite
    with the database. *)
Ltac scraper_simpl :=
  repeat match goal with
    | H : Forall _ (_ :: _) |- _ => apply Forall_cons in H as [? ?]
    | H : _ ∧ _ |- _ => destruct H
    end;
  autorewrite with scraper_rw in *.

(** ** Strings *)

(** Indexing a Python string inside its length succeeds. *)
Lemma string_get_lt (s : string) (n : nat) :
  n < String.length s → ∃ c, String.get n s = Some c.
Proof.
  revert n. induction s as [|c s IH]; intros n Hn; simpl in *; [lia|].
  destruct n as [|n]; [eauto|]. apply IH. lia.
Qed.

Lemma string_get_ge (s : string) (n : nat) :
  String.length s ≤ n → String.get n s = None.
Proof.
  revert n. induction s as [|c s IH]; intros n Hn; simpl in *; [done|].
  destruct n as [|n]; [lia|]. apply IH. lia.
Qed.

Lemma string_length_append (s1 s2 : string) :
  String.length (String.append s1 s2) = String.length s1 + String.length s2.
Proof. induction s1 as [|c s1 IH]; simpl; [reflexivity|lia]. Qed.

(** [''.join(l)] has the summed length of the parts. *)
Lemma string_length_join (l : list string) :
  String.length (String.concat "" l) = sum_list_with String.length l.
Proof.
  induction l as [|x l IH]; [done|]. destruct l as [|y l]; [simpl; lia|].
  change (String.concat "" (x :: y :: l))
    with (String.append x (String.concat "" (y :: l))).
  rewrite string_length_append, IH. simpl. lia.
Qed.
