(* ===== verification/PyRuntime.v ===== *)
(** * The Python runtime the scraper relies on

    Exceptions are the inductive [exn] (one constructor per exception class
    the code raises or catches); a Python statement that reads and writes
    state [S] and may raise is a function [SE S A := S -> S * res A].
    [py_try] is [try/except/finally] with Python's rule that an exception
    raised by the [finally] block replaces the pending outcome; [py_for]
    is a [for] loop whose body ends in [continue] or [return]; [log] is
    the [logging] module, a list of records appended in order.  The last
    sections are a Hoare logic for [SE] programs and relational triples
    ([bi_hoare]: two runs from related states), used by [Login]. *)

From S2P Require Import Prelude.

(** ** Exceptions *)

Inductive exn : Type :=
  | TimeoutException                     (** selenium [TimeoutException] *)
  | NoSuchElementException (what : string)
  | WebDriverException (msg : string)
  | ValueError (msg : string)            (** numpy broadcast failure *)
  | IndexError (msg : string)
  | FileNotFoundError (path : string)    (** [Image.open] on a missing path *)
  | UnidentifiedImageError (path : string)
  | UnboundLocalError (name : string)    (** reading an unassigned local *)
  | RuntimeException (msg : string)      (** [raise Exception(msg)] *)
  | SystemExit (code : Z).               (** [sys.exit(code)] *)

#[export] Instance exn_eq_dec : EqDecision exn.
Proof. solve_decision. Defined.

(** [except TimeoutException:] matches exactly this class. *)
Definition is_timeout (e : exn) : bool :=
  match e with TimeoutException => true | _ => false end.

Inductive res (A : Type) : Type :=
  | Ok (a : A)
  | Err (e : exn).
Arguments Ok {A} a.
Arguments Err {A} e.

(** ** The state-and-exception monad *)

Definition SE (S A : Type) : Type := S → S * res A.

Definition se_ret {S A} (a : A) : SE S A := λ s, (s, Ok a).
Definition se_raise {S A} (e : exn) : SE S A := λ s, (s, Err e).
Definition se_bind {S A B} (c : SE S A) (k : A → SE S B) : SE S B :=
  λ s, match c s with
       | (s', Ok a) => k a s'
       | (s', Err e) => (s', Err e)
       end.
Definition se_gets {S A} (f : S → A) : SE S A := λ s, (s, Ok (f s)).
Definition se_modify {S} (f : S → S) : SE S unit := λ s, (f s, Ok ()).

(** Run a computation on one component of the state. *)
Definition se_zoom {S T A} (get : S → T) (put : T → S → S) (c : SE T A) : SE S A :=
  λ s, let '(t', r) := c (get s) in (put t' s, r).

Notation "x <- c ;; k" := (se_bind c (λ x, k))
  (at level 100, c at next level, right associativity) : py_scope.
Notation "c ;; k" := (se_bind c (λ _, k))
  (at level 100, right associativity) : py_scope.

Open Scope py_scope.

(** ** [try / except / finally] *)

(** [py_try body handler final]: run [body]; on an exception run the
    handler (a handler that does not match re-raises with [se_raise]);
    then run [final] on every path.  If [final] raises, its exception
    replaces the pending outcome (a return value or an exception). *)
Definition py_try {S A} (body : SE S A) (handler : exn → SE S A)
    (final : SE S unit) : SE S A :=
  λ s, let '(s1, r1) := match body s with
                        | (s1, Err e) => handler e s1
                        | o => o
                        end in
       match final s1 with
       | (s2, Ok _) => (s2, r1)
       | (s2, Err e') => (s2, Err e')
       end.

(** [try: body  except Exception as e: handler e] (no [finally]). *)
Definition py_try_except {S A} (body : SE S A) (handler : exn → SE S A) : SE S A :=
  py_try body handler (se_ret ()).

(** ** [for x in xs:] with [continue] and [return] *)

Inductive loop_ctl (A : Type) : Type :=
  | LContinue
  | LReturn (a : A).
Arguments LContinue {A}.
Arguments LReturn {A} a.

(** The loop returns [Some a] when the body executes [return a], and
    [None] when it runs off the end of [xs]. *)
Fixpoint py_for {S A B} (xs : list B) (body : B → SE S (loop_ctl A)) : SE S (option A) :=
  match xs with
  | [] => se_ret None
  | x :: xs' =>
      c <- body x ;;
      match c with
      | LReturn a => se_ret (Some a)
      | LContinue => py_for xs' body
      end
  end.

(** [range(n)] for a Python integer [n] (empty when [n <= 0]). *)
Definition py_range (n : Z) : list Z := map Z.of_nat (seq 0 (Z.to_nat n)).

(** ** The [logging] module *)

Inductive level : Type := DEBUG | INFO | WARNING | ERROR.

(** One constructor per [logger] call site of the source, carrying the
    values its f-string interpolates. *)
Inductive log_msg : Type :=
  | MsgPreprocessError (e : exn)
  | MsgExtractCharError (position : nat) (e : exn)
  | MsgMatchError (e : exn)
  | MsgLowConfidence (position : nat)
  | MsgSolveError (e : exn)
  | MsgSetupDriverError (e : exn)
  | MsgLoginAttempt (attempt max_retries : Z)
  | MsgCaptchaSolution (solution : string)
  | MsgLoginSuccessful
  | MsgAttemptTimeout (attempt : Z)
  | MsgAttemptFailed (attempt : Z) (e : exn)
  | MsgExtractMarksError (e : exn)
  | MsgExtractionError (e : exn)
  | MsgMarksSaved (path : string)
  | MsgMainError (e : exn).

Record log_rec : Type := LogRec { log_level : level; log_message : log_msg }.

Definition log (l : level) (m : log_msg) : SE (list log_rec) unit :=
  se_modify (λ lg, lg ++ [LogRec l m]).

(** ** The filesystem *)

(** The working directory: file name to contents. *)
Abbreviation files := (gmap string (list Byte.byte)).

(** [os.path.exists(p)] *)
Definition os_path_exists (fs : files) (p : string) : bool := bool_decide (is_Some (fs !! p)).

(** [os.remove(p)] on an existing file. *)
Definition os_remove (fs : files) (p : string) : files := delete p fs.

(** ** Hoare triples for [SE] programs *)

(** [hoare P c Q]: from a state satisfying [P], [c] ends in a state and
    result satisfying [Q]. *)
Definition hoare {St A} (P : St → Prop) (c : SE St A) (Q : res A → St → Prop) : Prop :=
  ∀ s, P s → Q (c s).2 (c s).1.

(** [c] leaves the projection [f] of the state unchanged. *)
Definition se_keeps {St T A} (f : St → T) (c : SE St A) : Prop := ∀ s, f (c s).1 = f s.

(** Every value [c] returns satisfies [P] ([P := λ _, False]: [c] always
    raises). *)
Definition se_returns {St A} (P : A → Prop) (c : SE St A) : Prop := ∀ s a, (c s).2 = Ok a → P a.

(** ** Relational triples *)

(** [bi_hoare P c Q]: run from two states related by [P], [c] gives the
    same result in both runs and ends in states related by [Q]. *)
Definition bi_hoare {S A} (P : S → S → Prop) (c : SE S A) (Q : S → S → Prop) : Prop :=
  ∀ s1 s2, P s1 s2 → (c s1).2 = (c s2).2 ∧ Q (c s1).1 (c s2).1.

(** The same, with a final relation that depends on the common result. *)
Definition bi_hoare_res {S A} (P : S → S → Prop) (c : SE S A) (Q : res A → S → S → Prop) : Prop :=
  ∀ s1 s2, P s1 s2 → (c s1).2 = (c s2).2 ∧ Q (c s1).2 (c s1).1 (c s2).1.

(** * Lemmas *)

(** ** The monad *)

Lemma se_bind_ret_l {S A B} (a : A) (k : A → SE S B) s :
  se_bind (se_ret a) k s = k a s.
Proof. done. Qed.

Lemma se_bind_raise {S A B} (e : exn) (k : A → SE S B) s :
  se_bind (se_raise e) k s = (s, Err e).
Proof. done. Qed.

Lemma se_bind_assoc {S A B C} (c : SE S A) (k : A → SE S B) (h : B → SE S C) s :
  se_bind (se_bind c k) h s = se_bind c (λ a, se_bind (k a) h) s.
Proof. unfold se_bind. by destruct (c s) as [? []]. Qed.

Lemma se_bind_ok {S A B} (c : SE S A) (k : A → SE S B) s s' a :
  c s = (s', Ok a) → se_bind c k s = k a s'.
Proof. intros H. unfold se_bind. by rewrite H. Qed.

Lemma se_bind_err {S A B} (c : SE S A) (k : A → SE S B) s s' e :
  c s = (s', Err e) → se_bind c k s = (s', Err e).
Proof. intros H. unfold se_bind. by rewrite H. Qed.

#[export] Hint Rewrite @se_bind_ret_l @se_bind_raise @se_bind_assoc : scraper_rw.

(** ** [try] *)

Lemma py_try_except_ok {S A} (body : SE S A) handler s s' a :
  body s = (s', Ok a) → py_try_except body handler s = (s', Ok a).
Proof. intros H. unfold py_try_except, py_try. by rewrite H. Qed.

Lemma py_try_except_err {S A} (body : SE S A) handler s s' e :
  body s = (s', Err e) → py_try_except body handler s = handler e s'.
Proof.
  intros H. unfold py_try_except, py_try. rewrite H.
  by destruct (handler e s') as [? ?].
Qed.

(** ** [range] *)

Lemma length_py_range n : length (py_range n) = Z.to_nat n.
Proof. unfold py_range. by rewrite length_map, length_seq. Qed.

Lemma py_range_lookup n i :
  (i < Z.to_nat n)%nat → py_range n !! i = Some (Z.of_nat i).
Proof.
  intros Hi. unfold py_range. rewrite list_lookup_fmap, lookup_seq_lt by done.
  done.
Qed.

(** ** Hoare rules *)

Section Hoare.
Context {St : Type}.

Lemma hoare_ret {A} (P : St → Prop) (a : A) Q :
  (∀ s, P s → Q (Ok a) s) → hoare P (se_ret a) Q.
Proof. intros H s Hs. by apply H. Qed.

Lemma hoare_raise {A} (P : St → Prop) e (Q : res A → St → Prop) :
  (∀ s, P s → Q (Err e) s) → hoare P (se_raise e) Q.
Proof. intros H s Hs. by apply H. Qed.

Lemma hoare_bind {A B} P (c : SE St A) (k : A → SE St B) R Q :
  hoare P c (λ r s, match r with Ok a => R a s | Err e => Q (Err e) s end) →
  (∀ a, hoare (R a) (k a) Q) →
  hoare P (se_bind c k) Q.
Proof.
  intros Hc Hk s Hs. specialize (Hc s Hs). unfold se_bind.
  destruct (c s) as [s' [a|e]]; simpl in *; [by apply Hk | done].
Qed.

Lemma hoare_conseq {A} P P' (c : SE St A) Q Q' :
  hoare P' c Q' → (∀ s, P s → P' s) → (∀ r s, Q' r s → Q r s) → hoare P c Q.
Proof. intros Hc HP HQ s Hs. by apply HQ, Hc, HP. Qed.

(** Sequencing with postconditions that do not look at the result: the
    intermediate assertion must imply the final one, for the case where
    the first computation raises. *)
Lemma hoare_bind_uniform {A B} P (c : SE St A) (k : A → SE St B) R Q :
  hoare P c (λ _, R) → (∀ s, R s → Q s) → (∀ a, hoare R (k a) (λ _, Q)) →
  hoare P (se_bind c k) (λ _, Q).
Proof.
  intros Hc HRQ Hk. eapply hoare_bind; [|exact Hk].
  eapply hoare_conseq; [exact Hc|done|]. intros [a|e] s' HR; simpl; auto.
Qed.

Lemma hoare_try {A} P (body : SE St A) handler final R H Q :
  hoare P body (λ r s, match r with Ok a => R (Ok a) s | Err e => H e s end) →
  (∀ e, hoare (H e) (handler e) R) →
  (∀ r, hoare (R r) final
          (λ r' s, match r' with Ok _ => Q r s | Err e' => Q (Err e') s end)) →
  hoare P (py_try body handler final) Q.
Proof.
  intros Hb Hh Hf s Hs. specialize (Hb s Hs). unfold py_try.
  destruct (body s) as [s1 [a|e]]; simpl in Hb.
  - specialize (Hf _ _ Hb). destruct (final s1) as [s2 [[]|e']]; done.
  - specialize (Hh _ _ Hb). destruct (handler e s1) as [s2 r2] eqn:E; simpl in *.
    specialize (Hf _ _ Hh). destruct (final s2) as [s3 [[]|e']]; done.
Qed.

Lemma hoare_for {A B} (xs : list B) (body : B → SE St (loop_ctl A)) (I : nat → St → Prop) Q :
  (∀ i x, xs !! i = Some x →
     hoare (I i) (body x)
       (λ r s, match r with
               | Ok LContinue => I (Datatypes.S i) s
               | Ok (LReturn a) => Q (Ok (Some a)) s
               | Err e => Q (Err e) s
               end)) →
  (∀ s, I (length xs) s → Q (Ok None) s) →
  hoare (I 0%nat) (py_for xs body) Q.
Proof.
  revert I. induction xs as [|x xs IH]; intros I Hbody Hend; simpl.
  - apply hoare_ret. apply Hend.
  - eapply hoare_bind; [apply (Hbody 0%nat x); done|].
    intros [|a]; [|apply hoare_ret; done].
    apply (IH (λ i, I (Datatypes.S i))); [|done].
    intros i y Hy. apply (Hbody (S i) y). done.
Qed.

(** A computation that leaves the projection [f] of the state unchanged
    keeps any property of it. *)
Lemma hoare_keeps {T A} (f : St → T) (c : SE St A) (R : T → Prop) :
  se_keeps f c → hoare (λ s, R (f s)) c (λ _ s, R (f s)).
Proof. intros Hk s Hs. by rewrite Hk. Qed.

Lemma keeps_ret {T A} (f : St → T) (a : A) : se_keeps f (se_ret a).
Proof. done. Qed.

Lemma keeps_raise {T A} (f : St → T) e : se_keeps f (se_raise (A:=A) e).
Proof. done. Qed.

Lemma keeps_bind {T A B} (f : St → T) (c : SE St A) (k : A → SE St B) :
  se_keeps f c → (∀ a, se_keeps f (k a)) → se_keeps f (se_bind c k).
Proof.
  intros Hc Hk s. unfold se_bind. specialize (Hc s).
  destruct (c s) as [s' [a|e]]; simpl in *; [by rewrite Hk|done].
Qed.

Lemma keeps_for {T A B} (f : St → T) (xs : list B) (body : B → SE St (loop_ctl A)) :
  (∀ x, se_keeps f (body x)) → se_keeps f (py_for xs body).
Proof.
  intros Hb. induction xs as [|x xs IH]; simpl; [apply keeps_ret|].
  apply keeps_bind; [done|]. intros [|a]; [done|apply keeps_ret].
Qed.

Lemma keeps_try {T A} (f : St → T) (body : SE St A) handler final :
  se_keeps f body → (∀ e, se_keeps f (handler e)) → se_keeps f final →
  se_keeps f (py_try body handler final).
Proof.
  intros Hb Hh Hf s. unfold py_try. specialize (Hb s).
  destruct (body s) as [s1 [a|e]] eqn:E; simpl in *.
  - specialize (Hf s1). destruct (final s1) as [s2 [[]|e']]; simpl in *; congruence.
  - specialize (Hh e s1). destruct (handler e s1) as [s2 r2]; simpl in *.
    specialize (Hf s2). destruct (final s2) as [s3 [[]|e']]; simpl in *; congruence.
Qed.
End Hoare.

#[export] Hint Resolve keeps_ret keeps_raise keeps_bind keeps_for keeps_try : scraper.

(** [se_zoom] keeps every projection that its [put] does not touch. *)
Lemma keeps_zoom {S T U A} (f : S → U) (get : S → T) (put : T → S → S) (c : SE T A) :
  (∀ t s, f (put t s) = f s) → se_keeps f (se_zoom get put c).
Proof. intros Hp s. unfold se_zoom. destruct (c (get s)). simpl. apply Hp. Qed.

Lemma keeps_modify {S T} (f : S → T) (g : S → S) :
  (∀ s, f (g s) = f s) → se_keeps f (se_modify g).
Proof. intros H s. apply H. Qed.

Lemma keeps_gets {S T A} (f : S → T) (g : S → A) : se_keeps f (se_gets g).
Proof. done. Qed.

#[export] Hint Resolve keeps_gets : scraper.

(** Solve a [se_keeps] goal by decomposing the program. *)
Ltac solve_keeps :=
  repeat (intros; first
    [ apply keeps_bind
    | apply keeps_try
    | apply keeps_for
    | apply keeps_ret
    | apply keeps_raise
    | apply keeps_gets
    | apply keeps_zoom; done
    | apply keeps_modify; done
    | match goal with |- se_keeps _ (match ?x with _ => _ end) => destruct x end
    | eauto with scraper ]).


(** ** What a computation returns *)

Section Returns.
Context {St : Type}.

Lemma returns_ret {A} (P : A → Prop) a : P a → se_returns (St:=St) P (se_ret a).
Proof. intros H s a' [= <-]. done. Qed.

Lemma returns_raise {A} (P : A → Prop) e : se_returns (St:=St) P (se_raise e).
Proof. intros s a' [=]. Qed.

Lemma returns_bind {A B} (P : B → Prop) (c : SE St A) (k : A → SE St B) :
  (∀ a, se_returns P (k a)) → se_returns P (se_bind c k).
Proof.
  intros Hk s b. unfold se_bind. destruct (c s) as [s' [a|e]]; simpl; [apply Hk|done].
Qed.

Lemma returns_bind_fail {A B} (P : B → Prop) (c : SE St A) (k : A → SE St B) :
  se_returns (λ _, False) c → se_returns P (se_bind c k).
Proof.
  intros Hc s b. unfold se_bind. specialize (Hc s).
  destruct (c s) as [s' [a|e]]; simpl in *; [by destruct (Hc a)|done].
Qed.

Lemma returns_try {A} (P : A → Prop) body handler final :
  se_returns P body → (∀ e, se_returns P (handler e)) →
  se_returns (St:=St) P (py_try body handler final).
Proof.
  intros Hb Hh s a. unfold py_try. specialize (Hb s).
  destruct (body s) as [s1 [x|e]] eqn:E; simpl in *.
  - destruct (final s1) as [s2 [[]|e']]; simpl; [apply Hb|done].
  - specialize (Hh e s1). destruct (handler e s1) as [s2 r2]; simpl in *.
    destruct (final s2) as [s3 [[]|e']]; simpl; [apply Hh|done].
Qed.

Lemma returns_impl {A} (P Q : A → Prop) (c : SE St A) :
  se_returns P c → (∀ a, P a → Q a) → se_returns Q c.
Proof. intros Hc HPQ s a Ha. by eapply HPQ, Hc. Qed.

(** A loop whose body always continues returns [None]. *)
Lemma returns_for {A B} (xs : list B) (body : B → SE St (loop_ctl A)) :
  (∀ x, se_returns (λ c, c = LContinue) (body x)) →
  se_returns (λ r, r = None) (py_for xs body).
Proof.
  intros Hb. induction xs as [|x xs IH]; simpl; [by apply returns_ret|].
  intros s r. unfold se_bind. specialize (Hb x s).
  destruct (body x s) as [s' [c|e]]; simpl in *; [|done].
  rewrite (Hb c eq_refl). apply IH.
Qed.

Lemma keeps_bind_fail {T A B} (f : St → T) (c : SE St A) (k : A → SE St B) :
  se_keeps f c → se_returns (λ _, False) c → se_keeps f (se_bind c k).
Proof.
  intros Hk Hc s. unfold se_bind. specialize (Hk s). specialize (Hc s).
  destruct (c s) as [s' [a|e]]; simpl in *; [by destruct (Hc a)|done].
Qed.

Lemma hoare_returns {A} (P : A → Prop) (c : SE St A) :
  se_returns P c → hoare (λ _, True) c (λ r _, ∀ a, r = Ok a → P a).
Proof. intros Hc s _ a Ha. by eapply Hc. Qed.
End Returns.

Lemma returns_zoom {S T A} (P : A → Prop) (get : S → T) (put : T → S → S) (c : SE T A) :
  se_returns P c → se_returns P (se_zoom get put c).
Proof. intros Hc s a. unfold se_zoom. specialize (Hc (get s)). destruct (c (get s)). apply Hc. Qed.

Lemma returns_modify {S} (f : S → S) : se_returns (λ _, True) (se_modify f).
Proof. done. Qed.

(** ** Relational rules *)

Section BiHoare.
Context {St : Type}.
Implicit Types P Q R : St → St → Prop.

Lemma bi_ret {A} P (a : A) Q : (∀ s1 s2, P s1 s2 → Q s1 s2) → bi_hoare P (se_ret a) Q.
Proof. intros H s1 s2 Hs. split; [done|]. by apply H. Qed.

Lemma bi_raise {A} P e Q : (∀ s1 s2, P s1 s2 → Q s1 s2) → bi_hoare P (se_raise (A:=A) e) Q.
Proof. intros H s1 s2 Hs. split; [done|]. by apply H. Qed.

Lemma bi_conseq {A} P P' (c : SE St A) Q Q' :
  bi_hoare P' c Q' → (∀ s1 s2, P s1 s2 → P' s1 s2) → (∀ s1 s2, Q' s1 s2 → Q s1 s2) → bi_hoare P c Q.
Proof. intros Hc HP HQ s1 s2 Hs. destruct (Hc s1 s2 (HP _ _ Hs)). auto. Qed.

(** Sequencing, where what relates the states after [c] may depend on
    what [c] returned. *)
Lemma bi_bind_res {A B} P (c : SE St A) (k : A → SE St B) (R : res A → St → St → Prop) Q :
  bi_hoare_res P c R → (∀ a, bi_hoare (R (Ok a)) (k a) Q) → (∀ e s1 s2, R (Err e) s1 s2 → Q s1 s2) →
  bi_hoare P (se_bind c k) Q.
Proof.
  intros Hc Hk HRQ s1 s2 Hs. destruct (Hc s1 s2 Hs) as [Hr HR].
  unfold se_bind. destruct (c s1) as [t1 r1], (c s2) as [t2 r2]. simpl in *. subst r2.
  destruct r1 as [a|e]; [apply Hk|eauto]; done.
Qed.

Lemma bi_bind {A B} P (c : SE St A) (k : A → SE St B) R Q :
  bi_hoare P c R → (∀ a, bi_hoare R (k a) Q) → (∀ s1 s2, R s1 s2 → Q s1 s2) →
  bi_hoare P (se_bind c k) Q.
Proof. intros Hc Hk HRQ. by apply (bi_bind_res _ _ _ (λ _, R)). Qed.

Lemma bi_try {A} P (body : SE St A) handler final R Q :
  bi_hoare P body R → (∀ e, bi_hoare R (handler e) R) → bi_hoare R final Q →
  bi_hoare P (py_try body handler final) Q.
Proof.
  intros Hb Hh Hf s1 s2 Hs. destruct (Hb s1 s2 Hs) as [Hr HR]. unfold py_try.
  destruct (body s1) as [t1 r1], (body s2) as [t2 r2]. simpl in *. subst r2.
  destruct r1 as [a|e]; simpl.
  - generalize (Hf t1 t2 HR).
    destruct (final t1) as [v1 [[]|e1]], (final t2) as [v2 [[]|e2]]; simpl;
      intros [Hr' HQ]; simpl in Hr'; first [split; [congruence|done] | congruence].
  - destruct (Hh e t1 t2 HR) as [Hr' HR']. destruct (handler e t1) as [u1 r], (handler e t2) as [u2 r'].
    simpl in *. subst r'. generalize (Hf u1 u2 HR').
    destruct (final u1) as [v1 [[]|e1]], (final u2) as [v2 [[]|e2]]; simpl;
      intros [Hr'' HQ]; simpl in Hr''; first [split; [congruence|done] | congruence].
Qed.

Lemma bi_for {A B} (xs : list B) (body : B → SE St (loop_ctl A)) I :
  (∀ x, bi_hoare I (body x) I) → bi_hoare I (py_for xs body) I.
Proof.
  intros Hb. induction xs as [|x xs IH]; simpl; [by apply bi_ret|].
  apply (bi_bind _ _ _ I); [done| |done]. intros [|a]; [done|by apply bi_ret].
Qed.
End BiHoare.
