(* ===== verification/Numpy.v ===== *)
(** * The numpy operations the captcha solver uses

    A 2-D numpy array is a list of rows of integers ([Mat]).  The arrays of
    the program always have at least one row, so the number of columns is
    the length of the first row.  Modelled: [.size], column slicing
    [m[:, a:b]] (Python slices clamp at the end of the row), [(m > t) * v],
    [m * k], elementwise [==] with numpy broadcasting (incompatible shapes
    raise [ValueError], as numpy >= 1.25 does), [np.sum] of a boolean array,
    and the float quotient [(k / n) * 100] as an exact rational ([NaN] when
    [n = 0]). *)

From S2P Require Import Prelude PyRuntime.
From Stdlib Require Import QArith_base.
Close Scope Q_scope.
Local Open Scope Z_scope.

Definition Mat : Type := list (list Z).

Definition nrows (m : Mat) : nat := length m.
Definition ncols (m : Mat) : nat := match m with [] => 0%nat | r :: _ => length r end.

(** [m.size] *)
Definition np_size (m : Mat) : nat := nrows m * ncols m.

(** [m.shape == (r, c)] for a rectangular array. *)
Definition has_shape (m : Mat) (r c : nat) : Prop :=
  length m = r ∧ Forall (λ row : list Z, length row = c) m.

#[export] Instance has_shape_dec m r c : Decision (has_shape m r c).
Proof. unfold has_shape. apply _. Defined.

(** Every entry is 0 or 255. *)
Definition binary (m : Mat) : Prop := Forall (Forall (λ v : Z, v = 0 ∨ v = 255)) m.

#[export] Instance binary_dec m : Decision (binary m).
Proof. unfold binary. apply _. Defined.

(** [m[:, a:b]] for [0 <= a]. *)
Definition slice_cols (m : Mat) (a b : nat) : Mat :=
  map (λ row, take (b - a) (drop a row)) m.

(** [(m > t) * v] *)
Definition gt_mul (m : Mat) (t v : Z) : Mat :=
  map (map (λ x, if Z.ltb t x then v else 0)) m.

(** [m * k] *)
Definition scale (m : Mat) (k : Z) : Mat := map (map (Z.mul k)) m.

(** ** Broadcasting [==] *)

(** Two dimensions are compatible when equal or when one of them is 1. *)
Definition bcast_dim (a b : nat) : option nat :=
  if decide (a = b) then Some a
  else if decide (a = 1%nat) then Some b
  else if decide (b = 1%nat) then Some a
  else None.

Definition bcast_rows (m : Mat) (R : nat) : Mat :=
  if decide (length m = 1%nat) then replicate R (hd [] m) else m.

Definition bcast_cols (m : Mat) (C : nat) : Mat :=
  map (λ row : list Z, if decide (length row = 1%nat) then replicate C (hd 0 row) else row) m.

Definition np_equal (a b : Mat) : res (list (list bool)) :=
  match bcast_dim (nrows a) (nrows b), bcast_dim (ncols a) (ncols b) with
  | Some R, Some C =>
      Ok (zip_with (zip_with Z.eqb) (bcast_cols (bcast_rows a R) C)
                                    (bcast_cols (bcast_rows b R) C))
  | _, _ => Err (ValueError "operands could not be broadcast together")
  end.

(** [np.sum] of a boolean array: the number of [True] entries. *)
Definition np_sum (m : list (list bool)) : nat := sum_list_with count_true m.

(** ** Float division *)

(** A numpy float64 result: a number, or [nan] (from [0 / 0]). *)
Inductive score : Type :=
  | Num (q : Q)
  | NaN.

(** [(k / n) * 100] with [k] a numpy integer and [n] a Python int. *)
Definition pct_q (k n : nat) : Q := (inject_Z (Z.of_nat k) / inject_Z (Z.of_nat n) * 100)%Q.

Definition pct (k n : nat) : score :=
  if decide (n = 0%nat) then NaN else Num (pct_q k n).

(** [s > b] for a float [s] and a number [b]; a comparison with [nan] is
    false. *)
Definition score_gt (s : score) (b : Q) : bool :=
  match s with Num q => negb (Qle_bool q b) | NaN => false end.

(** ** Lemmas *)

Lemma bcast_dim_same n : bcast_dim n n = Some n.
Proof. unfold bcast_dim. by rewrite decide_True. Qed.

Lemma ncols_shape m r c : has_shape m r c → r ≠ 0%nat → ncols m = c.
Proof. intros [Hl HF] Hr. destruct m as [|row m]; simpl in *; [lia|]. by inversion HF. Qed.

Lemma bcast_rows_id m R : length m = R → bcast_rows m R = m.
Proof.
  intros <-. unfold bcast_rows. case_decide as H; [|done].
  destruct m as [|x [|]]; simpl in *; done || lia.
Qed.

Lemma bcast_cols_id m c : Forall (λ row : list Z, length row = c) m → bcast_cols m c = m.
Proof.
  induction 1 as [|row m Hrow _ IH]; [done|]. simpl. rewrite IH. f_equal.
  case_decide as H; [|done]. destruct row as [|x [|]]; simpl in *; subst; done || lia.
Qed.

(** Arrays of one shape compare elementwise, without broadcasting. *)
Lemma np_equal_same_shape a b r c :
  has_shape a r c → has_shape b r c →
  np_equal a b = Ok (zip_with (zip_with Z.eqb) a b).
Proof.
  intros Ha Hb. unfold np_equal.
  assert (ncols a = ncols b) as Hc.
  { destruct (decide (r = 0%nat)) as [->|Hr].
    - destruct Ha as [Ha _], Hb as [Hb _]. by destruct a, b.
    - by rewrite (ncols_shape a r c), (ncols_shape b r c). }
  destruct Ha as [Hla HFa], Hb as [Hlb HFb].
  unfold nrows. rewrite Hla, Hlb, Hc, !bcast_dim_same, !bcast_rows_id by done.
  destruct (decide (r = 0%nat)) as [->|Hr].
  - by destruct a, b.
  - rewrite (ncols_shape b r c) by done. by rewrite !bcast_cols_id.
Qed.

(** The row counts 20 and 10 (or any two different counts, neither of
    them 1) cannot be broadcast together. *)
Lemma np_equal_rows_mismatch a b :
  nrows a ≠ nrows b → nrows a ≠ 1%nat → nrows b ≠ 1%nat →
  np_equal a b = Err (ValueError "operands could not be broadcast together").
Proof.
  intros H1 H2 H3. unfold np_equal, bcast_dim.
  by rewrite !decide_False by done.
Qed.

Lemma length_zip_with_eqb (r1 r2 : list Z) :
  length r1 = length r2 → length (zip_with Z.eqb r1 r2) = length r1.
Proof. intros H. rewrite length_zip_with. lia. Qed.

(** The number of equal pixels of two arrays of shape (r, c). *)
Lemma np_sum_le a b r c :
  has_shape a r c → has_shape b r c →
  (np_sum (zip_with (zip_with Z.eqb) a b) ≤ r * c)%nat.
Proof.
  intros [<- HFa] [Hl HFb]. revert b Hl HFb.
  induction HFa as [|ra a Hra _ IH]; intros [|rb b] Hl HFb; simpl in *; try lia.
  inversion HFb as [|? ? Hrb HFb']; subst.
  pose proof (count_true_le (zip_with Z.eqb ra rb)).
  rewrite length_zip_with in *. specialize (IH b ltac:(lia) HFb'). unfold np_sum in *. lia.
Qed.

Lemma zip_with_eqb_all (r1 r2 : list Z) :
  length r1 = length r2 →
  Forall (λ b : bool, b = true) (zip_with Z.eqb r1 r2) ↔ r1 = r2.
Proof.
  revert r2. induction r1 as [|x r1 IH]; intros [|y r2] Hl; simpl in *; try lia.
  - split; [done|constructor].
  - rewrite Forall_cons, Z.eqb_eq, IH by lia. split; [intros [-> ->]|intros [=-> ->]]; done.
Qed.

Lemma zip_with_eqb_none (r1 r2 : list Z) :
  length r1 = length r2 →
  Forall (λ b : bool, b = false) (zip_with Z.eqb r1 r2) ↔ Forall2 (λ x y, x ≠ y) r1 r2.
Proof.
  revert r2. induction r1 as [|x r1 IH]; intros [|y r2] Hl; simpl in *; try lia.
  - split; constructor.
  - rewrite Forall_cons, Z.eqb_neq, Forall2_cons, IH by lia. done.
Qed.

#[export] Hint Resolve np_sum_le : scraper.

Lemma gt_mul_shape m t v r c : has_shape m r c → has_shape (gt_mul m t v) r c.
Proof.
  intros [Hl HF]. unfold gt_mul. split; [by rewrite length_map|].
  apply Forall_map. eapply Forall_impl; [done|]. intros row Hr. by rewrite length_map.
Qed.

Lemma gt_mul_binary m t : binary (gt_mul m t 255).
Proof.
  apply Forall_forall. intros row Hrow. apply list_elem_of_In, in_map_iff in Hrow.
  destruct Hrow as (r & <- & _). apply Forall_forall. intros x Hx.
  apply list_elem_of_In, in_map_iff in Hx. destruct Hx as (y & <- & _).
  destruct (t <? y); auto.
Qed.

#[export] Hint Resolve gt_mul_shape gt_mul_binary : scraper.

(** ** The percentage *)

Lemma pct_q_S k n : pct_q k (S n) = ((Z.of_nat k * 1 * 100) # (1 * Pos.of_succ_nat n * 1))%Q.
Proof. reflexivity. Qed.

(** [k] matches out of [n > 0] give a percentage in [0, 100], equal to
    100 exactly when [k = n] and to 0 exactly when [k = 0]. *)
Lemma pct_q_bounds k n : (k ≤ n)%nat → n ≠ 0%nat →
  (0 <= pct_q k n <= 100)%Q ∧ (pct_q k n == 100 ↔ k = n)%Q ∧ (pct_q k n == 0 ↔ k = 0%nat)%Q.
Proof.
  intros Hk Hn. destruct n as [|n]; [done|]. rewrite pct_q_S. unfold Qle, Qeq.
  simpl Qnum. simpl Qden. rewrite !Pos2Z.inj_mul, Zpos_P_of_succ_nat.
  split; [split|split; split]; intros; lia.
Qed.

(** Over one total, percentages compare as the match counts do. *)
Lemma pct_q_lt k1 k2 n : n ≠ 0%nat → (pct_q k1 n < pct_q k2 n)%Q ↔ (k1 < k2)%nat.
Proof.
  intros Hn. destruct n as [|n]; [done|]. rewrite !pct_q_S. unfold Qlt.
  simpl Qnum. simpl Qden. rewrite !Pos2Z.inj_mul, Zpos_P_of_succ_nat. nia.
Qed.

Lemma score_gt_num q b : score_gt (Num q) b = true ↔ (b < q)%Q.
Proof.
  simpl. rewrite negb_true_iff. split.
  - intros H. apply Qnot_le_lt. intros H'. apply Qle_bool_iff in H'. congruence.
  - intros H. destruct (Qle_bool q b) eqn:E; [|done].
    apply Qle_bool_iff in E. exfalso. apply (Qlt_not_le b q); done.
Qed.

(** ** Counting equal pixels *)

Lemma np_sum_cons r rs : np_sum (r :: rs) = (count_true r + np_sum rs)%nat.
Proof. done. Qed.

Lemma row_count_eqb_le (ra rb : list Z) c :
  length ra = c → length rb = c → (count_true (zip_with Z.eqb ra rb) ≤ c)%nat.
Proof.
  intros Ha Hb. pose proof (count_true_le (zip_with Z.eqb ra rb)).
  rewrite length_zip_with in *. lia.
Qed.

(** All pixels of two arrays of one shape are equal exactly when the
    arrays are equal. *)
Lemma np_sum_full a b c :
  length a = length b → Forall (λ row : list Z, length row = c) a →
  Forall (λ row : list Z, length row = c) b →
  np_sum (zip_with (zip_with Z.eqb) a b) = (length a * c)%nat ↔ a = b.
Proof.
  intros Hl HFa. revert b Hl. induction HFa as [|ra a Hra HFa IH]; intros [|rb b] Hl HFb;
    simpl in *; try lia; [done|].
  inversion HFb as [|? ? Hrb HFb']; subst.
  pose proof (row_count_eqb_le ra rb (length ra) eq_refl Hrb).
  pose proof (np_sum_le a b (length a) (length ra) (conj eq_refl HFa) (conj (eq_sym (eq_add_S _ _ Hl)) HFb')).
  split.
  - intros Hsum. f_equal.
    + apply zip_with_eqb_all; [lia|]. apply count_true_all.
      rewrite length_zip_with. lia.
    + apply IH; [lia|done|lia].
  - intros [= -> ->].
    assert (count_true (zip_with Z.eqb rb rb) = length rb) as ->.
    { pose proof (proj2 (zip_with_eqb_all rb rb eq_refl) eq_refl) as Hall.
      apply count_true_all in Hall. rewrite length_zip_with in Hall. lia. }
    rewrite (proj2 (IH b eq_refl HFb') eq_refl). lia.
Qed.

(** No pixel is equal exactly when the count of equal pixels is 0. *)
Lemma np_sum_zero a b c :
  length a = length b → Forall (λ row : list Z, length row = c) a →
  Forall (λ row : list Z, length row = c) b →
  np_sum (zip_with (zip_with Z.eqb) a b) = 0%nat ↔ Forall2 (Forall2 (λ x y, x ≠ y)) a b.
Proof.
  intros Hl HFa. revert b Hl. induction HFa as [|ra a Hra HFa IH]; intros [|rb b] Hl HFb;
    simpl in *; try lia; [split; constructor|].
  inversion HFb as [|? ? Hrb HFb']; subst.
  rewrite Forall2_cons, <- (IH b ltac:(lia) HFb'), <- zip_with_eqb_none, <- count_true_zero by lia.
  lia.
Qed.

(** ** Slicing *)

(** [m[:, a:b]] of an array of shape (r, w) has shape
    (r, min (b - a) (w - a)): Python clamps the slice at the row's end. *)
Lemma slice_cols_shape m r w a b :
  has_shape m r w → has_shape (slice_cols m a b) r (min (b - a) (w - a)).
Proof.
  intros [Hl HF]. unfold slice_cols. split; [by rewrite length_map|].
  apply Forall_map. eapply Forall_impl; [done|]. intros row Hrow.
  rewrite length_take_drop. simpl in Hrow. lia.
Qed.
