(* ===== verification/Templates.v ===== *)
(** * TemplateLibrary: [CaptchaSolver.__init__] and [_load_test_set]

    The library is the list [test_set]; the label of the template at index
    [idx] is character [idx] of [char_map] (lines 96-100 of the source).
    The shipped library holds one 10x8 bitmap (the digit 0), scaled from
    0/1 to 0/255. *)

From S2P Require Import Prelude PyRuntime Numpy.
Local Open Scope Z_scope.

(** [template_0] (lines 35-46): the 0/1 rows times 255. *)
Definition template_0 : Mat :=
  scale [[0; 1; 1; 1; 1; 1; 1; 0];
         [1; 1; 1; 1; 1; 1; 1; 1];
         [1; 1; 0; 0; 0; 0; 1; 1];
         [1; 1; 0; 0; 0; 0; 1; 1];
         [1; 1; 0; 0; 0; 0; 1; 1];
         [1; 1; 0; 0; 0; 0; 1; 1];
         [1; 1; 0; 0; 0; 0; 1; 1];
         [1; 1; 0; 0; 0; 0; 1; 1];
         [1; 1; 1; 1; 1; 1; 1; 1];
         [0; 1; 1; 1; 1; 1; 1; 0]] 255.

(** [_load_test_set] (lines 28-50). *)
Definition load_test_set : list Mat := [template_0].

(** The [CaptchaSolver] object: its two attributes. *)
Record CaptchaSolver : Type := MkCaptchaSolver {
  test_set : list Mat;
  char_map : string
}.

(** [CaptchaSolver.__init__] (lines 24-26). *)
Definition CaptchaSolver_init : CaptchaSolver := {|
  test_set := load_test_set;
  char_map := "0123456789ABCDEFGHIJKLMNOPQRSTUVWXYZ"
|}.

(** The library invariant: every template is a 10x8 array of 0/255. *)
Definition templates_wf (ts : list Mat) : Prop :=
  Forall (λ t, has_shape t 10 8 ∧ binary t) ts.

#[export] Instance templates_wf_dec ts : Decision (templates_wf ts).
Proof. unfold templates_wf. apply _. Defined.

(** ** A library of cell-shaped templates

    Test data, not part of the source: the shipped library has one template
    whose shape (10x8) differs from the cells [solve] cuts (20x10); the
    theorems about a working classifier use this library instead.
    [glyph k] is a 20x10 cell whose row [k] is 255 and whose other entries
    are 0. *)
Definition glyph (k : nat) : Mat :=
  map (λ i : nat, replicate 10 (if decide (i = k) then 255 else 0)) (seq 0 20).

(** Thirteen templates, labelled '0'..'9', 'A', 'B', 'C'. *)
Definition cell_library : list Mat := map glyph (seq 0 13).

Definition deployed_solver : CaptchaSolver := {|
  test_set := cell_library;
  char_map := char_map CaptchaSolver_init
|}.

(** ** Properties *)

(** The shipped library holds exactly one template, labelled ['0'], and it
    satisfies the library invariant: 10 rows, 8 columns, entries 0 or 255. *)
Theorem CaptchaSolver_init_library :
  templates_wf (test_set CaptchaSolver_init) ∧
  length (test_set CaptchaSolver_init) = 1%nat ∧
  String.get 0 (char_map CaptchaSolver_init) = Some "0"%char.
Proof. split; [by apply (bool_decide_eq_true_1 _); vm_compute|done]. Qed.
