(* ===== verification/Preprocess.v ===== *)
(** * ImagePreprocessor: [CaptchaSolver._preprocess_image]

    PIL is an interface here: the type class [ImageCodec] gives
    [Image.open(f).convert('L')] on the bytes of a file ([decode_L], which
    fails on bytes PIL cannot identify) and [img.resize((w, h))]
    ([resize]); [ImageCodecLaws] states what the solver relies on: the
    resized image has [h] rows of [w] pixels.  [raw_codec] is a concrete
    codec (a width byte, a height byte, then the grey pixels row by row,
    resized by nearest neighbour) that discharges the law and runs the
    examples. *)

From S2P Require Import Prelude PyRuntime Numpy.
Local Open Scope Z_scope.

Class ImageCodec : Type := {
  decode_L : list Byte.byte → option Mat;
  resize : Mat → nat → nat → Mat
}.

Class ImageCodecLaws (C : ImageCodec) : Prop := {
  resize_shape : ∀ img w h, has_shape (resize img w h) h w
}.

Section Preprocess.
Context `{C : ImageCodec}.

(** [_preprocess_image] (lines 52-63): open the file, convert to grey,
    resize to 70x20, [np.array], then [(matrix > 128) * 255]; on any
    exception log it and re-raise. *)
Definition preprocess_image (fs : files) (image_path : string) : SE (list log_rec) Mat :=
  py_try_except
    (match fs !! image_path with
     | None => se_raise (FileNotFoundError image_path)
     | Some bytes =>
         match decode_L bytes with
         | None => se_raise (UnidentifiedImageError image_path)
         | Some img =>
             let img := resize img 70 20 in
             let matrix := img in
             se_ret (gt_mul matrix 128 255)
         end
     end)
    (λ e, log ERROR (MsgPreprocessError e) ;; se_raise e).
End Preprocess.

(** ** A concrete codec *)

Definition byte_val (b : Byte.byte) : Z := Z.of_N (Byte.to_N b).

(** [n] rows of [w] values. *)
Fixpoint chunk (w n : nat) (l : list Z) : Mat :=
  match n with
  | O => []
  | S n' => take w l :: chunk w n' (drop w l)
  end.

Definition raw_decode (bs : list Byte.byte) : option Mat :=
  match bs with
  | wb :: hb :: px =>
      let w := Byte.to_nat wb in
      let h := Byte.to_nat hb in
      if decide (w ≠ 0%nat ∧ h ≠ 0%nat ∧ length px = (w * h)%nat)
      then Some (chunk w h (map byte_val px)) else None
  | _ => None
  end.

Definition pixel (m : Mat) (i j : nat) : Z := default 0 (m !! i ≫= (λ row, row !! j)).

Definition resize_nearest (m : Mat) (w h : nat) : Mat :=
  map (λ i, map (λ j, pixel m (i * nrows m / h) (j * ncols m / w)) (seq 0 w)) (seq 0 h).

Definition raw_codec : ImageCodec := {| decode_L := raw_decode; resize := resize_nearest |}.

(** A one-byte encoding of a value in [0, 255]. *)
Definition byte_of_Z (z : Z) : Byte.byte := default Byte.x00 (Byte.of_N (Z.to_N z)).

(** The file [raw_decode] reads back as [m] (for [m] of at most 255 rows
    and columns). *)
Definition raw_encode (m : Mat) : list Byte.byte :=
  byte_of_Z (Z.of_nat (ncols m)) :: byte_of_Z (Z.of_nat (nrows m)) :: map byte_of_Z (concat m).

(** The grey image of 20 rows of 70 pixels of value 200, as a file. *)
Definition grey_file : files := {[ "captcha.png" := raw_encode (replicate 20 (replicate 70 200)) ]}.

(** * Lemmas *)

#[export] Instance raw_codec_laws : ImageCodecLaws raw_codec.
Proof.
  constructor. intros img w h. split; simpl; unfold resize_nearest.
  - by rewrite length_map, length_seq.
  - apply Forall_forall. intros row Hrow. apply list_elem_of_In, in_map_iff in Hrow.
    destruct Hrow as (i & <- & _). by rewrite length_map, length_seq.
Qed.

(** A successful call returns a 20x70 matrix and logs nothing. *)
Lemma preprocess_image_shape `{C : ImageCodec} `{!ImageCodecLaws C} fs p lg lg' m :
  preprocess_image fs p lg = (lg', Ok m) → has_shape m 20 70 ∧ lg' = lg.
Proof.
  unfold preprocess_image, py_try_except, py_try.
  destruct (fs !! p) as [b|]; [|done]. destruct (decode_L b) as [img|]; [|done].
  simpl. intros [= <- <-]. auto using gt_mul_shape, resize_shape.
Qed.

(** A missing file: [FileNotFoundError], logged and re-raised. *)
Lemma preprocess_image_missing `{C : ImageCodec} fs p lg :
  fs !! p = None →
  preprocess_image fs p lg =
    (lg ++ [LogRec ERROR (MsgPreprocessError (FileNotFoundError p))], Err (FileNotFoundError p)).
Proof. intros H. unfold preprocess_image. by rewrite H. Qed.

(** ** Properties *)

Section PreprocessProps.
Context `{C : ImageCodec} `{!ImageCodecLaws C}.

(** C15: every matrix [_preprocess_image] returns has exactly 20 rows of
    70 columns and every entry is 0 or 255; a successful call logs
    nothing. *)
Theorem preprocess_image_ok fs p lg lg' m :
  preprocess_image fs p lg = (lg', Ok m) →
  has_shape m 20 70 ∧ binary m ∧ lg' = lg.
Proof.
  intros H. destruct (preprocess_image_shape fs p lg lg' m H) as [Hm ->]. split_and!; [done| |done].
  revert H. unfold preprocess_image, py_try_except, py_try.
  destruct (fs !! p) as [b|]; [|done]. destruct (decode_L b) as [img|]; [|done].
  simpl. intros [= <-]. apply gt_mul_binary.
Qed.

(** [_preprocess_image] reads nothing but the file at its path:
    identical file contents give identical results (spec property 2). *)
Lemma preprocess_image_local fs1 fs2 p :
  fs1 !! p = fs2 !! p → preprocess_image fs1 p = preprocess_image fs2 p.
Proof. intros H. unfold preprocess_image. by rewrite H. Qed.

(** C19: The failure cases: a missing file raises [FileNotFoundError], bytes
    PIL cannot identify raise [UnidentifiedImageError]; either is logged
    once at ERROR level and re-raised. *)
Theorem preprocess_image_errors fs p lg :
  (fs !! p = None →
     preprocess_image fs p lg =
       (lg ++ [LogRec ERROR (MsgPreprocessError (FileNotFoundError p))],
        Err (FileNotFoundError p))) ∧
  (∀ b, fs !! p = Some b → decode_L b = None →
     preprocess_image fs p lg =
       (lg ++ [LogRec ERROR (MsgPreprocessError (UnidentifiedImageError p))],
        Err (UnidentifiedImageError p))).
Proof.
  unfold preprocess_image, py_try_except, py_try.
  split; [intros ->; done|]. intros b -> ->. done.
Qed.
End PreprocessProps.

Lemma preprocess_image_ok_witness :
  has_shape (replicate 20 (replicate 70 255)) 20 70 ∧
  binary (replicate 20 (replicate 70 255)) ∧ @nil log_rec = [].
Proof.
  apply (preprocess_image_ok (C:=raw_codec) grey_file "captcha.png" [] []).
  vm_compute. reflexivity.
Defined.
