(* ===== verification/Matcher.v ===== *)
(** * CharacterSegmenter and TemplateMatcher

    [extract_character] is [_extract_character], [calculate_match_percentage]
    is [_calculate_match_percentage], and [classify_cell] is the inner loop
    of [solve] (lines 93-100): scan the library in order, keep the first
    strictly greater percentage and the label [char_map[idx]] of its
    template.  [first_best] is the specification of that loop (the label of
    the first template of greatest positive score, or [''] when no score is
    positive) and [classify_cell_first_best] is the refinement theorem. *)

From S2P Require Import Prelude PyRuntime Numpy Templates.
From Stdlib Require Import QArith_base Lqa.
Close Scope Q_scope.

(** [_extract_character] (lines 65-73): [matrix[:, 10p : 10p + 10]].  The
    [except] branch only logs and re-raises; slicing a 2-D array with a
    non-negative start never raises. *)
Definition extract_character (matrix : Mat) (position : nat) : Mat :=
  let start_x := (position * 10)%nat in
  slice_cols matrix start_x (start_x + 10).

(** [_calculate_match_percentage] (lines 75-83). *)
Definition calculate_match_percentage (char_matrix test_matrix : Mat) : SE (list log_rec) score :=
  py_try_except
    (match np_equal char_matrix test_matrix with
     | Ok eq =>
         let matching_pixels := np_sum eq in
         let total_pixels := np_size char_matrix in
         se_ret (pct matching_pixels total_pixels)
     | Err e => se_raise e
     end)
    (λ e, log ERROR (MsgMatchError e) ;; se_raise e).

(** The value a [best_match = match_percent] assignment stores; it only
    runs after [match_percent > best_match], which is false for [nan]. *)
Definition score_q (s : score) : Q := match s with Num q => q | NaN => 0%Q end.

(** Lines 96-100: [for idx, test_matrix in enumerate(self.test_set)]. *)
Fixpoint classify_loop (char_map : string) (char_matrix : Mat) (ts : list Mat)
    (idx : nat) (best_match : Q) (best_char : string) : SE (list log_rec) (Q * string) :=
  match ts with
  | [] => se_ret (best_match, best_char)
  | test_matrix :: ts' =>
      match_percent <- calculate_match_percentage char_matrix test_matrix ;;
      if score_gt match_percent best_match then
        match String.get idx char_map with
        | Some ch =>
            classify_loop char_map char_matrix ts' (S idx) (score_q match_percent)
              (String ch EmptyString)
        | None => se_raise (IndexError "string index out of range")
        end
      else classify_loop char_map char_matrix ts' (S idx) best_match best_char
  end.

(** Lines 93-100: [best_match = 0], [best_char = ''], then the loop. *)
Definition classify_cell (self : CaptchaSolver) (char_matrix : Mat) : SE (list log_rec) (Q * string) :=
  classify_loop (char_map self) char_matrix (test_set self) 0 0%Q "".

(** ** Specification of the classification loop *)

(** The percentage of pixels of [cell] equal to those of [t]. *)
Definition match_q (cell t : Mat) : Q :=
  pct_q (np_sum (zip_with (zip_with Z.eqb) cell t)) (np_size cell).

(** [best_char] is the label of the first template whose score is the
    greatest and positive, and [best] that score; or no score is positive,
    [best] is 0 and [best_char] is empty. *)
Definition first_best (cm : string) (qs : list Q) (best : Q) (best_char : string) : Prop :=
  (best_char = "" ∧ best = 0%Q ∧ ∀ x, x ∈ qs → (x <= 0)%Q) ∨
  (∃ i ch, best_char = String ch "" ∧ String.get i cm = Some ch ∧ qs !! i = Some best ∧
     (0 < best)%Q ∧ (∀ x, x ∈ qs → (x <= best)%Q) ∧
     (∀ j x, (j < i)%nat → qs !! j = Some x → (x < best)%Q)).

(** ** Lemmas *)

Lemma first_best_nil cm : first_best cm [] 0%Q "".
Proof. left. split_and!; [done|done|]. intros x Hx. by apply elem_of_nil in Hx. Qed.

(** One iteration that finds a strictly greater score. *)
Lemma first_best_snoc_gt cm pre best bc x ch :
  first_best cm pre best bc → (best < x)%Q → String.get (length pre) cm = Some ch →
  first_best cm (pre ++ [x]) x (String ch "").
Proof.
  intros Hfb Hlt Hch. right. exists (length pre), ch.
  assert (0 <= best)%Q as H0.
  { destruct Hfb as [(_ & -> & _)|(i & c & _ & _ & _ & Hp & _)]; lra. }
  assert (∀ y, y ∈ pre → (y <= best)%Q) as Hle.
  { destruct Hfb as [(_ & -> & H)|(i & c & _ & _ & _ & _ & H & _)]; done. }
  split_and!; [done|done|by rewrite list_lookup_middle|lra| |].
  - intros y Hy. apply elem_of_app in Hy as [Hy|Hy%list_elem_of_singleton].
    + specialize (Hle y Hy). lra.
    + subst. lra.
  - intros j y Hj Hy. rewrite lookup_app_l in Hy by done.
    assert (y <= best)%Q by (apply Hle; by eapply list_elem_of_lookup_2). lra.
Qed.

(** One iteration whose score is not greater. *)
Lemma first_best_snoc_le cm pre best bc x :
  first_best cm pre best bc → (x <= best)%Q → first_best cm (pre ++ [x]) best bc.
Proof.
  intros [(-> & -> & H)|(i & c & -> & Hc & Hi & Hpos & Hle & Hfirst)] Hx.
  - left. split_and!; [done|done|]. intros y [Hy|Hy%list_elem_of_singleton]%elem_of_app; [auto|subst; auto].
  - right. exists i, c. split_and!; [done|done| |done| |].
    + rewrite lookup_app_l; [done|]. by eapply lookup_lt_Some.
    + intros y [Hy|Hy%list_elem_of_singleton]%elem_of_app; [auto|subst; auto].
    + intros j y Hj Hy. rewrite lookup_app_l in Hy; [by eapply Hfirst|].
      apply lookup_lt_Some in Hi. lia.
Qed.

(** Arrays of one shape (r, c), [r, c > 0], score [match_q] and log
    nothing. *)
Lemma calculate_match_percentage_same_shape cell t r c lg :
  has_shape cell r c → has_shape t r c → r ≠ 0%nat → c ≠ 0%nat →
  calculate_match_percentage cell t lg = (lg, Ok (Num (match_q cell t))).
Proof.
  intros Hc Ht Hr Hc0. unfold calculate_match_percentage, match_q, pct.
  rewrite (np_equal_same_shape cell t r c) by done.
  unfold np_size, nrows. rewrite (ncols_shape cell r c) by done.
  destruct Hc as [-> _]. rewrite decide_False by lia. done.
Qed.

(** The loop, when every template scores without error. *)
Lemma classify_loop_first_best cm cell ts f pre best bc lg :
  (∀ t lg', t ∈ ts → calculate_match_percentage cell t lg' = (lg', Ok (Num (f t)))) →
  (length pre + length ts ≤ String.length cm)%nat →
  first_best cm pre best bc →
  ∃ best' bc', classify_loop cm cell ts (length pre) best bc lg = (lg, Ok (best', bc')) ∧
               first_best cm (pre ++ map f ts) best' bc'.
Proof.
  revert pre best bc. induction ts as [|t ts IH]; intros pre best bc Hf Hlen Hfb; simpl.
  - exists best, bc. by rewrite app_nil_r.
  - unfold se_bind. rewrite Hf by set_solver.
    assert (∀ t' lg', t' ∈ ts → calculate_match_percentage cell t' lg' = (lg', Ok (Num (f t'))))
      as Hf' by (intros; apply Hf; set_solver).
    replace (pre ++ f t :: map f ts) with ((pre ++ [f t]) ++ map f ts)
      by by rewrite <-app_assoc.
    destruct (score_gt (Num (f t)) best) eqn:Hgt.
    + apply score_gt_num in Hgt.
      destruct (string_get_lt cm (length pre)) as [ch Hch]; [simpl in Hlen; lia|].
      rewrite Hch. replace (S (length pre)) with (length (pre ++ [f t]))
        by (rewrite length_app; simpl; lia).
      apply IH; [done|rewrite length_app; simpl in *; lia|].
      by eapply first_best_snoc_gt.
    + assert (f t <= best)%Q.
      { apply Qnot_lt_le. intros Hlt. apply score_gt_num in Hlt. congruence. }
      replace (S (length pre)) with (length (pre ++ [f t]))
        by (rewrite length_app; simpl; lia).
      apply IH; [done|rewrite length_app; simpl in *; lia|].
      by apply first_best_snoc_le.
Qed.

(** The cells [solve] cuts at positions 0 to 6 have 20 rows of 10
    pixels. *)
Lemma extract_character_cell m p :
  has_shape m 20 70 → (p ≤ 6)%nat → has_shape (extract_character m p) 20 10.
Proof.
  intros Hm Hp. assert (has_shape (slice_cols m (p * 10) (p * 10 + 10)) 20
    (min (p * 10 + 10 - p * 10) (70 - p * 10))) as H by by apply slice_cols_shape.
  replace (min (p * 10 + 10 - p * 10) (70 - p * 10)) with 10%nat in H by lia. done.
Qed.

(** The loop raises [IndexError] when the template at index [i >= len
    char_map] scores strictly above every template before it and above
    the running best. *)
Lemma classify_loop_overflow cm cell ts f k best bc lg i q :
  (∀ t lg', t ∈ ts → calculate_match_percentage cell t lg' = (lg', Ok (Num (f t)))) →
  (String.length cm ≤ i)%nat → (k ≤ i)%nat → map f ts !! (i - k)%nat = Some q → (best < q)%Q →
  (∀ j x, map f ts !! j = Some x → (k + j < i)%nat → (x < q)%Q) →
  classify_loop cm cell ts k best bc lg = (lg, Err (IndexError "string index out of range")).
Proof.
  revert k best bc. induction ts as [|t ts IH]; intros k best bc Hf Hlen Hk Hq Hb Hlt; [done|].
  simpl. unfold se_bind. rewrite Hf by set_solver.
  assert (∀ t' lg', t' ∈ ts → calculate_match_percentage cell t' lg' = (lg', Ok (Num (f t'))))
    as Hf' by (intros; apply Hf; set_solver).
  destruct (decide (k = i)) as [->|Hki].
  - rewrite Nat.sub_diag in Hq. simpl in Hq. injection Hq as ->.
    rewrite (proj2 (score_gt_num _ _) Hb), string_get_ge by lia. done.
  - assert (f t < q)%Q as Htq by (apply (Hlt 0%nat); [done|lia]).
    replace (i - k)%nat with (S (i - S k)) in Hq by lia. simpl in Hq.
    assert (∀ j x, map f ts !! j = Some x → (S k + j < i)%nat → (x < q)%Q) as Hlt'.
    { intros j x Hj Hji. apply (Hlt (S j)); [done|lia]. }
    destruct (score_gt (Num (f t)) best); [destruct (String.get k cm); [|done]|];
      apply IH; simpl; auto with lia.
Qed.

(** ** Properties *)

(** C13: a cell and a template of one shape (r, c) with [r, c > 0] are
    scored without error: the percentage is in [0, 100], it is 100 exactly
    when the cell is pixel-identical to the template, and 0 exactly when no
    pixel is equal (spec property 3). *)
Theorem calculate_match_percentage_bounds cell t r c lg :
  has_shape cell r c → has_shape t r c → r ≠ 0%nat → c ≠ 0%nat →
  ∃ q, calculate_match_percentage cell t lg = (lg, Ok (Num q)) ∧
       (0 <= q <= 100)%Q ∧ (q == 100 ↔ cell = t)%Q ∧
       (q == 0 ↔ Forall2 (Forall2 (λ x y, x ≠ y)) cell t)%Q.
Proof.
  intros Hc Ht Hr Hc0. exists (match_q cell t).
  split; [by apply calculate_match_percentage_same_shape with r c|].
  unfold match_q, np_size, nrows. rewrite (ncols_shape cell r c) by done.
  destruct Hc as [Hlc HFc], Ht as [Hlt HFt]. rewrite Hlc.
  destruct (pct_q_bounds (np_sum (zip_with (zip_with Z.eqb) cell t)) (r * c))
    as (Hb & H100 & H0); [by apply (np_sum_le cell t r c)|lia|].
  split; [done|split].
  - rewrite H100. subst r. apply (np_sum_full cell t c); done.
  - rewrite H0. subst r. apply (np_sum_zero cell t c); done.
Qed.

Lemma calculate_match_percentage_bounds_witness :
  ∃ q, calculate_match_percentage (glyph 3) (glyph 3) [] = ([], Ok (Num q)) ∧
       (0 <= q <= 100)%Q ∧ (q == 100 ↔ glyph 3 = glyph 3)%Q ∧
       (q == 0 ↔ Forall2 (Forall2 (λ x y, x ≠ y)) (glyph 3) (glyph 3))%Q.
Proof. apply (calculate_match_percentage_bounds _ _ 20 10); [vm_decide|vm_decide|lia|lia]. Defined.

(** C6: [classify_cell] refines [first_best]: when every template has the
    shape of the cell and the library is no longer than [char_map], the
    loop raises nothing, logs nothing, and returns the label of the first
    template of greatest positive score and that score, or [''] and 0 when
    no score is positive.  Of two templates with equal greatest score the
    one with the lower index wins (spec property 4). *)
Theorem classify_cell_first_best self cell r c lg :
  has_shape cell r c → r ≠ 0%nat → c ≠ 0%nat →
  Forall (λ t, has_shape t r c) (test_set self) →
  (length (test_set self) ≤ String.length (char_map self))%nat →
  ∃ best bc, classify_cell self cell lg = (lg, Ok (best, bc)) ∧
             first_best (char_map self) (map (match_q cell) (test_set self)) best bc.
Proof.
  intros Hc Hr Hc0 Hts Hlen.
  apply (classify_loop_first_best _ _ _ _ [] 0%Q ""); [|done|apply first_best_nil].
  intros t lg' Ht. eapply calculate_match_percentage_same_shape; [done| |done|done].
  rewrite Forall_forall in Hts. by apply Hts.
Qed.

Lemma classify_cell_first_best_witness :
  ∃ best bc, classify_cell deployed_solver (glyph 11) [] = ([], Ok (best, bc)) ∧
             first_best (char_map deployed_solver)
               (map (match_q (glyph 11)) (test_set deployed_solver)) best bc.
Proof.
  apply (classify_cell_first_best deployed_solver (glyph 11) 20 10 []);
    [vm_decide|lia|lia|vm_decide|vm_compute; lia].
Defined.

(** C17: the cell the solver cuts from a 20x70 matrix at position [p] has 20
    rows and 10 columns for [p <= 6], and 0 columns beyond: slicing past
    the right edge raises nothing (the spec's [SegmentationError] does not
    exist in the code). *)
Theorem extract_character_shape m p :
  has_shape m 20 70 →
  has_shape (extract_character m p) 20 (if decide (p ≤ 6)%nat then 10 else 0).
Proof.
  intros Hm. unfold extract_character.
  replace (if decide (p ≤ 6)%nat then 10%nat else 0%nat)
    with (min (p * 10 + 10 - p * 10) (70 - p * 10))
    by (case_decide; lia).
  by apply slice_cols_shape.
Qed.

Lemma extract_character_shape_witness :
  has_shape (extract_character (replicate 20 (replicate 70 0%Z)) 7) 20 0.
Proof. apply (extract_character_shape _ 7). vm_decide. Defined.

(** C14: a cell and a template whose row counts differ (neither being 1)
    cannot be compared: numpy raises [ValueError], which is logged once
    and re-raised.  The cells [solve] cuts have 20 rows and the shipped
    template 10. *)
Theorem calculate_match_percentage_shape_mismatch cell t lg :
  nrows cell ≠ nrows t → nrows cell ≠ 1%nat → nrows t ≠ 1%nat →
  calculate_match_percentage cell t lg =
    (lg ++ [LogRec ERROR (MsgMatchError (ValueError "operands could not be broadcast together"))],
     Err (ValueError "operands could not be broadcast together")).
Proof.
  intros H1 H2 H3. unfold calculate_match_percentage.
  rewrite np_equal_rows_mismatch by done. done.
Qed.

Lemma calculate_match_percentage_shape_mismatch_witness :
  calculate_match_percentage (glyph 0) template_0 [] =
    ([LogRec ERROR (MsgMatchError (ValueError "operands could not be broadcast together"))],
     Err (ValueError "operands could not be broadcast together")).
Proof. apply calculate_match_percentage_shape_mismatch; vm_compute; lia. Defined.

(** C21: nothing bounds the library to the 36 labels of [char_map].  When
    every template has the cell's shape and the first template whose
    score is positive and strictly above all templates before it has an
    index [i >= len(char_map)], [classify_cell] raises [IndexError] from
    [self.char_map[idx]] instead of classifying. *)
Theorem classify_cell_char_map_overflow self cell r c lg i q :
  has_shape cell r c → r ≠ 0%nat → c ≠ 0%nat →
  Forall (λ t, has_shape t r c) (test_set self) →
  (String.length (char_map self) ≤ i)%nat →
  map (match_q cell) (test_set self) !! i = Some q → (0 < q)%Q →
  (∀ j x, map (match_q cell) (test_set self) !! j = Some x → (j < i)%nat → (x < q)%Q) →
  classify_cell self cell lg = (lg, Err (IndexError "string index out of range")).
Proof.
  intros Hc Hr Hc0 Hts Hlen Hq Hpos Hlt.
  apply (classify_loop_overflow _ _ _ (match_q cell) _ _ _ _ i q); [|done|lia|by rewrite Nat.sub_0_r|done|done].
  intros t lg' Ht. eapply calculate_match_percentage_same_shape; [done| |done|done].
  rewrite Forall_forall in Hts. by apply Hts.
Qed.

(** A library of 36 blank templates followed by the glyph of the cell. *)
Lemma classify_cell_char_map_overflow_witness :
  classify_cell (MkCaptchaSolver (replicate 36 (replicate 20 (replicate 10 0%Z)) ++ [glyph 3])
                                 (char_map CaptchaSolver_init)) (glyph 3) [] =
    ([], Err (IndexError "string index out of range")).
Proof.
  apply (classify_cell_char_map_overflow _ _ 20 10 [] 36 (match_q (glyph 3) (glyph 3))); [vm_decide|lia|lia|vm_decide|vm_compute; lia
    |vm_compute; reflexivity|vm_compute; reflexivity|].
  intros j x Hj Hji. apply list_lookup_fmap_Some in Hj as (t & -> & Ht).
  cbn [test_set] in Ht. rewrite lookup_app_l in Ht by (rewrite length_replicate; lia).
  apply lookup_replicate in Ht as [-> _]. vm_compute. reflexivity.
Defined.
