(* ===== verification/Solver.v ===== *)
(** * CaptchaSolver: [CaptchaSolver.solve]

    [solve] preprocesses the image once, then for each position
    [i in range(6)] cuts the cell, classifies it ([classify_cell]), logs a
    warning when the best percentage is below 50, and appends the label;
    the result is the concatenation of the labels.  Any exception is logged
    and re-raised.  The theorems show that with the shipped library every
    call raises, and give the full functional behaviour for a library of
    cell-shaped templates. *)

From S2P Require Import Prelude PyRuntime Numpy Templates Preprocess Matcher.
From Stdlib Require Import QArith_base Lqa.
Close Scope Q_scope.

Section Solver.
Context `{C : ImageCodec}.

(** The body of [for i in range(6)] (lines 92-105). *)
Definition solve_position (self : CaptchaSolver) (matrix : Mat) (i : nat) :
    SE (list log_rec) string :=
  let char_matrix := extract_character matrix i in
  bm <- classify_cell self char_matrix ;;
  let '(best_match, best_char) := bm in
  (if negb (Qle_bool 50 best_match) then log WARNING (MsgLowConfidence i) else se_ret ()) ;;
  se_ret best_char.

(** The loop, with [result] the list built by [result.append]. *)
Fixpoint solve_loop (self : CaptchaSolver) (matrix : Mat) (positions : list nat)
    (result : list string) : SE (list log_rec) (list string) :=
  match positions with
  | [] => se_ret result
  | i :: ps =>
      best_char <- solve_position self matrix i ;;
      solve_loop self matrix ps (result ++ [best_char])
  end.

(** [solve] (lines 85-110). *)
Definition solve (self : CaptchaSolver) (fs : files) (captcha_path : string) :
    SE (list log_rec) string :=
  py_try_except
    (matrix <- preprocess_image fs captcha_path ;;
     result <- solve_loop self matrix (seq 0 6) [] ;;
     se_ret (String.concat "" result))
    (λ e, log ERROR (MsgSolveError e) ;; se_raise e).
End Solver.

(** ** Specification for a library of cell-shaped templates *)

(** The warning [solve] logs for position [i] when its best percentage
    is below 50. *)
Definition low_confidence_log (i : nat) (best : Q) : list log_rec :=
  if negb (Qle_bool 50 best) then [LogRec WARNING (MsgLowConfidence i)] else [].

(** [results] holds, for each position of [ps], the best percentage and
    the label [first_best] prescribes for the cell cut at that position. *)
Definition solve_spec (self : CaptchaSolver) (m : Mat) (ps : list nat)
    (results : list (Q * string)) : Prop :=
  Forall2 (λ i br, first_best (char_map self)
                     (map (match_q (extract_character m i)) (test_set self)) br.1 br.2)
          ps results.

(** ** The A1B2C3 scenario (spec property 7) *)

(** Place cells side by side. *)
Definition hcat (cells : list Mat) : Mat :=
  map (λ i, concat (map (λ g, default [] (g !! i)) cells)) (seq 0 20).

(** The glyphs of 'A', '1', 'B', '2', 'C', '3', then ten blank columns. *)
Definition a1b2c3_matrix : Mat :=
  hcat [glyph 10; glyph 1; glyph 11; glyph 2; glyph 12; glyph 3;
        replicate 20 (replicate 10 0%Z)].

Definition a1b2c3_files : files := {[ "temp_captcha_0.png" := raw_encode a1b2c3_matrix ]}.

(** * Lemmas *)

Lemma solve_err {C : ImageCodec} self fs p lg lg1 e :
  (matrix <- preprocess_image fs p ;;
   result <- solve_loop self matrix (seq 0 6) [] ;;
   se_ret (String.concat "" result)) lg = (lg1, Err e) →
  solve self fs p lg = (lg1 ++ [LogRec ERROR (MsgSolveError e)], Err e).
Proof. intros H. unfold solve. by rewrite (py_try_except_err _ _ _ _ _ H). Qed.

(** A matrix of 20 rows, cut at a position, compared with a template of
    10 rows: the first position already raises. *)
Lemma solve_loop_row_mismatch self m lg :
  has_shape m 20 70 →
  (∃ t ts, test_set self = t :: ts ∧ nrows t = 10%nat) →
  solve_loop self m (seq 0 6) [] lg =
    (lg ++ [LogRec ERROR (MsgMatchError (ValueError "operands could not be broadcast together"))],
     Err (ValueError "operands could not be broadcast together")).
Proof.
  intros Hm (t & ts & Hts & Ht). simpl. apply se_bind_err.
  unfold solve_position, classify_cell. apply se_bind_err. rewrite Hts. simpl.
  apply se_bind_err. destruct (extract_character_cell m 0 Hm) as [Hr _]; [lia|].
  unfold calculate_match_percentage. rewrite np_equal_rows_mismatch; [done|..];
    unfold nrows in *; rewrite ?Hr; lia.
Qed.

(** With the shipped library [solve] never returns a value. *)
Lemma solve_shipped_fails `{C : ImageCodec} `{!ImageCodecLaws C} fs p :
  se_returns (λ _, False) (solve CaptchaSolver_init fs p).
Proof.
  intros lg a. destruct (preprocess_image fs p lg) as [lg1 [m|e1]] eqn:Hp.
  - destruct (preprocess_image_shape fs p lg lg1 m Hp) as (Hm & ->).
    erewrite solve_err; [done|]. rewrite (se_bind_ok _ _ _ _ _ Hp).
    apply se_bind_err. apply solve_loop_row_mismatch; [done|]. by exists template_0, [].
  - erewrite solve_err; [done|]. by rewrite (se_bind_err _ _ _ _ _ Hp).
Qed.

(** [solve] reads nothing of the directory but the file at its path. *)
Lemma solve_local {C : ImageCodec} self fs1 fs2 p lg :
  fs1 !! p = fs2 !! p → solve self fs1 p lg = solve self fs2 p lg.
Proof. intros H. unfold solve. by rewrite (preprocess_image_local fs1 fs2 p H). Qed.

(** [solve] when the image is read and every position is classified. *)
Lemma solve_run {C : ImageCodec} self fs p lg lg1 lg2 m rs :
  preprocess_image fs p lg = (lg1, Ok m) → solve_loop self m (seq 0 6) [] lg1 = (lg2, Ok rs) →
  solve self fs p lg = (lg2, Ok (String.concat "" rs)).
Proof.
  intros Hp Hl. unfold solve. apply py_try_except_ok.
  rewrite (se_bind_ok _ _ _ _ _ Hp). by rewrite (se_bind_ok _ _ _ _ _ Hl).
Qed.

(** One position, when the cell classifies without error. *)
Lemma solve_position_spec {C : ImageCodec} self m i lg best bc :
  classify_cell self (extract_character m i) lg = (lg, Ok (best, bc)) →
  solve_position self m i lg = (lg ++ low_confidence_log i best, Ok bc).
Proof.
  intros H. unfold solve_position. rewrite (se_bind_ok _ _ _ _ _ H).
  unfold low_confidence_log. destruct (negb (Qle_bool 50 best)); simpl.
  - done.
  - by rewrite app_nil_r.
Qed.

(** The loop over positions [ps] (each at most 6) for a library of 20x10
    templates. *)
Lemma solve_loop_spec {C : ImageCodec} self m ps res0 lg :
  has_shape m 20 70 → Forall (λ i, i ≤ 6)%nat ps →
  Forall (λ t, has_shape t 20 10) (test_set self) →
  (length (test_set self) ≤ String.length (char_map self))%nat →
  ∃ results, solve_spec self m ps results ∧
    solve_loop self m ps res0 lg =
      (lg ++ concat (zip_with low_confidence_log ps (map fst results)),
       Ok (res0 ++ map snd results)).
Proof.
  intros Hm Hps Hts Hlen. revert res0 lg.
  induction Hps as [|i ps Hi Hps IH]; intros res0 lg; simpl.
  - exists []. split; [constructor|]. by rewrite !app_nil_r.
  - pose proof (extract_character_cell m i Hm Hi) as Hcell.
    destruct (classify_loop_first_best (char_map self) (extract_character m i) (test_set self)
                (match_q (extract_character m i)) [] 0%Q "" lg)
      as (best & bc & Hcl & Hfb); [|done|apply first_best_nil|].
    { intros t lg' Ht. eapply calculate_match_percentage_same_shape; [done| |lia|lia].
      rewrite Forall_forall in Hts. by apply Hts. }
    rewrite (se_bind_ok _ _ _ _ _ (solve_position_spec _ _ _ _ _ _ Hcl)).
    destruct (IH (res0 ++ [bc]) (lg ++ low_confidence_log i best)) as (rs & Hspec & Hloop).
    exists ((best, bc) :: rs). split; [by constructor|].
    rewrite Hloop. simpl. by rewrite <-!app_assoc.
Qed.

Lemma first_best_label_length cm qs best bc :
  first_best cm qs best bc → (String.length bc ≤ 1)%nat ∧
    (String.length bc = 1%nat ↔ ∃ x, x ∈ qs ∧ (0 < x)%Q).
Proof.
  intros [(-> & -> & Hle)|(i & ch & -> & _ & Hi & Hpos & _)]; simpl.
  - split; [lia|]. split; [lia|]. intros (x & Hx & Hpos). specialize (Hle x Hx). lra.
  - split; [lia|]. split; [|done]. intros _. exists best.
    split; [by eapply list_elem_of_lookup_2|done].
Qed.

(** The labels of [solve_spec] have total length at most the number of
    positions, with equality exactly when every position has a template of
    positive score. *)
Lemma solve_spec_labels self m ps results :
  solve_spec self m ps results →
  (sum_list_with String.length (map snd results) ≤ length ps)%nat ∧
  (sum_list_with String.length (map snd results) = length ps ↔
     Forall (λ i, ∃ t, t ∈ test_set self ∧ (0 < match_q (extract_character m i) t)%Q) ps).
Proof.
  induction 1 as [|i [best bc] ps rs Hfb Hrest IH]; simpl; [split; [lia|split; constructor]|].
  apply first_best_label_length in Hfb as [Hle Hone]. simpl in *.
  destruct IH as [IHle IHeq]. split; [lia|]. rewrite Forall_cons, <- IHeq.
  assert ((∃ t, t ∈ test_set self ∧ (0 < match_q (extract_character m i) t)%Q) ↔
          String.length bc = 1%nat) as ->.
  { rewrite Hone. split.
    - intros (t & Ht & Hpos). exists (match_q (extract_character m i) t).
      split; [by apply list_elem_of_fmap_2|done].
    - intros (x & Hx & Hpos). apply list_elem_of_fmap in Hx as (t & -> & Ht). eauto. }
  lia.
Qed.

(** ** Properties *)

(** C3: with the shipped library [solve] never returns a string.  When the
    image is read and decoded, the first comparison of a 20x10 cell with
    the 10x8 template raises numpy's [ValueError]; otherwise the
    preprocessing error propagates.  Either way the error is logged and
    re-raised. *)
Theorem solve_shipped_library_raises `{C : ImageCodec} `{!ImageCodecLaws C} fs p lg :
  ∃ lg' e, solve CaptchaSolver_init fs p lg = (lg', Err e) ∧
    match preprocess_image fs p lg with
    | (_, Ok _) =>
        e = ValueError "operands could not be broadcast together" ∧
        lg' = lg ++ [LogRec ERROR (MsgMatchError e); LogRec ERROR (MsgSolveError e)]
    | (lg1, Err e1) => e = e1 ∧ lg' = lg1 ++ [LogRec ERROR (MsgSolveError e1)]
    end.
Proof.
  destruct (preprocess_image fs p lg) as [lg1 [m|e1]] eqn:Hp.
  - destruct (preprocess_image_shape fs p lg lg1 m Hp) as (Hm & ->).
    set (VE := ValueError "operands could not be broadcast together").
    exists (lg ++ [LogRec ERROR (MsgMatchError VE); LogRec ERROR (MsgSolveError VE)]), VE.
    split; [|done].
    change [LogRec ERROR (MsgMatchError VE); LogRec ERROR (MsgSolveError VE)]
      with ([LogRec ERROR (MsgMatchError VE)] ++ [LogRec ERROR (MsgSolveError VE)]).
    rewrite app_assoc. apply solve_err. rewrite (se_bind_ok _ _ _ _ _ Hp).
    apply se_bind_err. apply solve_loop_row_mismatch; [done|].
    by exists template_0, [].
  - eexists _, _. split; [|split; reflexivity].
    apply solve_err. by rewrite (se_bind_err _ _ _ _ _ Hp).
Qed.

Lemma solve_shipped_library_raises_witness :
  ∃ lg' e, solve (C:=raw_codec) CaptchaSolver_init grey_file "captcha.png" [] = (lg', Err e) ∧
    match preprocess_image (C:=raw_codec) grey_file "captcha.png" [] with
    | (_, Ok _) =>
        e = ValueError "operands could not be broadcast together" ∧
        lg' = [] ++ [LogRec ERROR (MsgMatchError e); LogRec ERROR (MsgSolveError e)]
    | (lg1, Err e1) => e = e1 ∧ lg' = lg1 ++ [LogRec ERROR (MsgSolveError e1)]
    end.
Proof. apply (solve_shipped_library_raises (C:=raw_codec)). Defined.

(** C7: with a library of 20x10 templates no longer than [char_map], once
    the image is preprocessed [solve] raises nothing: for each of the six
    positions it takes the label [first_best] prescribes, logs a warning
    exactly for the positions whose best percentage is below 50, and
    returns the concatenation of the six labels. *)
Theorem solve_cell_library `{C : ImageCodec} `{!ImageCodecLaws C} self fs p lg m :
  Forall (λ t, has_shape t 20 10) (test_set self) →
  (length (test_set self) ≤ String.length (char_map self))%nat →
  preprocess_image fs p lg = (lg, Ok m) →
  ∃ results, length results = 6%nat ∧ solve_spec self m (seq 0 6) results ∧
    solve self fs p lg =
      (lg ++ concat (zip_with low_confidence_log (seq 0 6) (map fst results)),
       Ok (String.concat "" (map snd results))).
Proof.
  intros Hts Hlen Hp.
  destruct (preprocess_image_shape fs p lg lg m Hp) as (Hm & _).
  destruct (solve_loop_spec self m (seq 0 6) [] lg) as (rs & Hspec & Hloop);
    [done|repeat constructor; lia|done|done|].
  exists rs. split; [by rewrite <-(Forall2_length _ _ _ Hspec)|]. split; [done|].
  exact (solve_run _ _ _ _ _ _ _ _ Hp Hloop).
Qed.

Lemma solve_cell_library_witness :
  ∃ results, length results = 6%nat ∧ solve_spec deployed_solver a1b2c3_matrix (seq 0 6) results ∧
    solve (C:=raw_codec) deployed_solver a1b2c3_files "temp_captcha_0.png" [] =
      ([] ++ concat (zip_with low_confidence_log (seq 0 6) (map fst results)),
       Ok (String.concat "" (map snd results))).
Proof.
  apply (solve_cell_library (C:=raw_codec)); [vm_decide|vm_compute; lia|].
  vm_compute. reflexivity.
Defined.

(** C16: for a library of 20x10 templates, a solved captcha has at most six
    characters, and exactly six only when every one of the six cells has
    a template with a positive percentage: a position where no template
    scores above 0 contributes the empty label [''] (the spec promises
    exactly six characters). *)
Theorem solve_result_length `{C : ImageCodec} `{!ImageCodecLaws C} self fs p lg m :
  Forall (λ t, has_shape t 20 10) (test_set self) →
  (length (test_set self) ≤ String.length (char_map self))%nat →
  preprocess_image fs p lg = (lg, Ok m) →
  ∃ lg' s, solve self fs p lg = (lg', Ok s) ∧ (String.length s ≤ 6)%nat ∧
    (String.length s = 6%nat ↔
       ∀ i, (i < 6)%nat → ∃ t, t ∈ test_set self ∧ (0 < match_q (extract_character m i) t)%Q).
Proof.
  intros Hts Hlen Hp.
  destruct (preprocess_image_shape fs p lg lg m Hp) as (Hm & _).
  destruct (solve_loop_spec self m (seq 0 6) [] lg) as (rs & Hspec & Hloop);
    [done|repeat constructor; lia|done|done|].
  eexists _, _. split; [exact (solve_run _ _ _ _ _ _ _ _ Hp Hloop)|]. rewrite string_length_join.
  destruct (solve_spec_labels _ _ _ _ Hspec) as [Hle Heq]. rewrite length_seq in Hle, Heq.
  split; [done|]. rewrite Heq, Forall_seq. split; intros H i Hi; apply H; lia.
Qed.

Lemma solve_result_length_witness :
  ∃ lg' s, solve (C:=raw_codec) deployed_solver a1b2c3_files "temp_captcha_0.png" [] = (lg', Ok s) ∧
    (String.length s ≤ 6)%nat ∧
    (String.length s = 6%nat ↔
       ∀ i, (i < 6)%nat → ∃ t, t ∈ test_set deployed_solver ∧
              (0 < match_q (extract_character a1b2c3_matrix i) t)%Q).
Proof.
  apply (solve_result_length (C:=raw_codec)); [vm_decide|vm_compute; lia|].
  vm_compute. reflexivity.
Defined.

(** Scenario: spec property 7: an image whose six cells are
    exactly the templates of 'A', '1', 'B', '2', 'C', '3' is solved as
    ["A1B2C3"], with no low-confidence warning. *)
Example solve_a1b2c3 :
  solve (C:=raw_codec) deployed_solver a1b2c3_files "temp_captcha_0.png" [] = ([], Ok "A1B2C3").
Proof. vm_compute. reflexivity. Qed.

(** C18: an empty library raises no configuration error: [solve] still
    reads the image (a missing file raises [FileNotFoundError]), and a
    readable image yields the empty string with six low-confidence
    warnings. *)
Theorem solve_empty_library `{C : ImageCodec} `{!ImageCodecLaws C} cm fs p lg :
  (fs !! p = None →
     solve (MkCaptchaSolver [] cm) fs p lg =
       (lg ++ [LogRec ERROR (MsgPreprocessError (FileNotFoundError p));
               LogRec ERROR (MsgSolveError (FileNotFoundError p))],
        Err (FileNotFoundError p))) ∧
  (∀ m, preprocess_image fs p lg = (lg, Ok m) →
     solve (MkCaptchaSolver [] cm) fs p lg =
       (lg ++ map (λ i, LogRec WARNING (MsgLowConfidence i)) (seq 0 6), Ok "")).
Proof.
  split.
  - intros Hnone.
    change [LogRec ERROR (MsgPreprocessError (FileNotFoundError p));
            LogRec ERROR (MsgSolveError (FileNotFoundError p))]
      with ([LogRec ERROR (MsgPreprocessError (FileNotFoundError p))] ++
            [LogRec ERROR (MsgSolveError (FileNotFoundError p))]).
    rewrite app_assoc. apply solve_err. apply se_bind_err. by apply preprocess_image_missing.
  - intros m Hp. unfold solve. apply py_try_except_ok.
    rewrite (se_bind_ok _ _ _ _ _ Hp). unfold se_bind, solve_position, classify_cell, log, se_modify, se_ret. simpl.
    by rewrite <-!app_assoc.
Qed.

Lemma solve_empty_library_witness :
  solve (C:=raw_codec) (MkCaptchaSolver [] "0") grey_file "captcha.png" [] =
    ([] ++ map (λ i, LogRec WARNING (MsgLowConfidence i)) (seq 0 6), Ok "").
Proof.
  apply (proj2 (solve_empty_library (C:=raw_codec) "0" grey_file "captcha.png" [])
           (replicate 20 (replicate 70 255%Z))).
  vm_compute. reflexivity.
Defined.
