(* ===== verification/Driver.v ===== *)
(** * The Selenium interface

    [Driver D] is the browser as the login code uses it, a type class over
    the driver's state [D]: [driver.get], the explicit wait
    [WebDriverWait(driver, t).until(presence_of_element_located(loc))]
    (which raises [TimeoutException]), [driver.find_element], the PNG of
    an element ([element.screenshot_as_png]), [send_keys], [click],
    [element.find_elements] (the number of matches), [element.text],
    starting Chrome ([webdriver.Chrome(...)], [implicitly_wait]) and
    [driver.quit()].
    Each operation may raise any [exn]; nothing else is assumed about the
    browser.  [drv_event] records a call, so the login's theorems can
    speak of the sequence of calls it makes.  [scripted] is a concrete
    driver whose behaviour is fixed by a [script]; it runs the examples. *)

From S2P Require Import Prelude PyRuntime.

Inductive locator : Type :=
  | ByName (name : string)
  | ById (id : string)
  | ByClassName (cls : string)
  | ByTagName (tag : string)
  | ByXPath (xpath : string).

#[export] Instance locator_eq_dec : EqDecision locator.
Proof. solve_decision. Defined.

(** A [WebElement]: found from the page by a locator, or the [index]-th
    match of a locator inside a parent element ([parent.find_elements]). *)
Inductive web_element : Type :=
  | WebElement (found_by : locator)
  | ChildElement (parent : web_element) (found_by : locator) (index : nat).

#[export] Instance web_element_eq_dec : EqDecision web_element.
Proof. solve_decision. Defined.

Class Driver (D : Type) : Type := {
  drv_start : D → D * res unit;
  drv_quit : D → D * res unit;
  drv_get : string → D → D * res unit;
  drv_wait_present : nat → locator → D → D * res unit;
  drv_find_element : locator → D → D * res web_element;
  drv_screenshot_png : web_element → D → D * res (list Byte.byte);
  drv_send_keys : web_element → string → D → D * res unit;
  drv_click : web_element → D → D * res unit;
  drv_find_elements : web_element → locator → D → D * res nat;
  drv_text : web_element → D → D * res string
}.

(** One call to the driver. *)
Inductive drv_event : Type :=
  | EvStart
  | EvQuit
  | EvGet (url : string)
  | EvWait (timeout : nat) (loc : locator)
  | EvFind (loc : locator)
  | EvScreenshot (el : web_element) (path : string)
  | EvSendKeys (el : web_element) (keys : string)
  | EvClick (el : web_element)
  | EvFindElements (el : web_element) (loc : locator)
  | EvText (el : web_element).

#[export] Instance drv_event_eq_dec : EqDecision drv_event.
Proof. solve_decision. Defined.

Definition is_get (ev : drv_event) : bool := match ev with EvGet _ => true | _ => false end.

(** The calls that fill in or submit the login form. *)
Definition is_submit (ev : drv_event) : bool :=
  match ev with EvSendKeys _ _ | EvClick _ => true | _ => false end.

(** ** A scripted driver *)

(** [sc_png] is the captcha screenshot; the wait for the user-name field
    times out on the page loads listed in [sc_user_timeouts] (counted from
    1); the dashboard appears from the [sc_dashboard_from]-th page load
    on; [sc_table] is the marks table, row by row and cell by cell. *)
Record script : Type := MkScript {
  sc_png : list Byte.byte;
  sc_user_timeouts : list nat;
  sc_dashboard_from : nat;
  sc_table : list (list string)
}.

Record scripted_state : Type := MkScripted {
  ss_script : script;
  ss_loads : nat
}.

Definition scripted_wait (loc : locator) (d : scripted_state) : res unit :=
  if decide (loc = ByName "username") then
    (if decide (ss_loads d ∈ sc_user_timeouts (ss_script d)) then Err TimeoutException else Ok ())
  else if decide (loc = ByClassName "dashboard") then
    (if decide (sc_dashboard_from (ss_script d) ≤ ss_loads d) then Ok () else Err TimeoutException)
  else Ok ().

(** Matches of [loc] inside [el]: the rows of the table, the cells of a
    row. *)
Definition scripted_count (el : web_element) (loc : locator) (d : scripted_state) : nat :=
  match el, loc with
  | WebElement (ByClassName "marks-table"), ByTagName "tr" => length (sc_table (ss_script d))
  | ChildElement _ (ByTagName "tr") i, ByTagName "td" =>
      length (default [] (sc_table (ss_script d) !! i))
  | _, _ => 0
  end.

Definition scripted_text (el : web_element) (d : scripted_state) : string :=
  match el with
  | ChildElement (ChildElement _ (ByTagName "tr") i) (ByTagName "td") j =>
      default "" (sc_table (ss_script d) !! i ≫= (λ row, row !! j))
  | _ => ""
  end.

#[export] Instance scripted : Driver scripted_state := {|
  drv_start d := (d, Ok ());
  drv_quit d := (d, Ok ());
  drv_get url d := (MkScripted (ss_script d) (S (ss_loads d)), Ok ());
  drv_wait_present t loc d := (d, scripted_wait loc d);
  drv_find_element loc d := (d, Ok (WebElement loc));
  drv_screenshot_png el d := (d, Ok (sc_png (ss_script d)));
  drv_send_keys el keys d := (d, Ok ());
  drv_click el d := (d, Ok ());
  drv_find_elements el loc d := (d, Ok (scripted_count el loc d));
  drv_text el d := (d, Ok (scripted_text el d))
|}.
