(* ===== verification/Login.v ===== *)
(** * LoginOrchestrator: [AUInfoExtractor.login]

    The state of a call is [login_state]: the driver's state, the working
    directory, the log, the trace of driver calls, and the function's local
    [captcha_path] ([None] while unassigned: Python raises
    [UnboundLocalError] on reading it).  One attempt is [login_attempt], a
    [py_try] whose body is the three blocks [attempt_navigate] (lines
    139-146), [attempt_capture] (147-148) and [attempt_submit] (150-166),
    whose handler is [attempt_handler] (168-178) and whose [finally] is
    [attempt_finally] (180-182).  [login] runs the attempts over
    [range(max_retries)] and returns [False] when the loop ends.  The
    relation [agree_but_fs] (two states that differ at most in the
    directory) carries the proof that no earlier file can influence a
    call. *)

From S2P Require Import Prelude PyRuntime Numpy Templates Preprocess Matcher Solver Driver.
From stdpp Require Import pretty.
Local Open Scope py_scope.

(** The [AUInfoExtractor] object. *)
Record AUInfoExtractor : Type := MkAUInfoExtractor {
  captcha_solver : CaptchaSolver;
  base_url : string;
  login_url : string;
  marks_url : string
}.

(** [AUInfoExtractor.__init__] (lines 113-117). *)
Definition AUInfoExtractor_init : AUInfoExtractor :=
  let base := "https://coe.annauniv.edu" in
  {| captcha_solver := CaptchaSolver_init;
     base_url := base;
     login_url := base +:+ "/login.php";
     marks_url := base +:+ "/student/marks.php" |}.

Record login_state (D : Type) : Type := MkLoginState {
  ls_driver : D;
  ls_fs : files;
  ls_log : list log_rec;
  ls_trace : list drv_event;
  ls_captcha_path : option string
}.
Arguments MkLoginState {D} _ _ _ _ _.
Arguments ls_driver {D} _.
Arguments ls_fs {D} _.
Arguments ls_log {D} _.
Arguments ls_trace {D} _.
Arguments ls_captcha_path {D} _.

Definition set_fs {D} (fs : files) (s : login_state D) : login_state D :=
  MkLoginState (ls_driver s) fs (ls_log s) (ls_trace s) (ls_captcha_path s).
Definition set_log {D} (lg : list log_rec) (s : login_state D) : login_state D :=
  MkLoginState (ls_driver s) (ls_fs s) lg (ls_trace s) (ls_captcha_path s).
Definition set_captcha_path {D} (p : option string) (s : login_state D) : login_state D :=
  MkLoginState (ls_driver s) (ls_fs s) (ls_log s) (ls_trace s) p.

(** [f"temp_captcha_{attempt}.png"] *)
Definition temp_captcha_path (attempt : Z) : string :=
  "temp_captcha_" +:+ pretty attempt +:+ ".png".

Section Login.
Context `{C : ImageCodec} {D : Type} `{Dr : Driver D}.

(** A driver call, recorded in the trace. *)
Definition drv_call {A} (ev : drv_event) (op : D → D * res A) : SE (login_state D) A :=
  λ s, let '(d', r) := op (ls_driver s) in
       (MkLoginState d' (ls_fs s) (ls_log s) (ls_trace s ++ [ev]) (ls_captcha_path s), r).

Definition logger (l : level) (m : log_msg) : SE (login_state D) unit :=
  se_zoom ls_log set_log (log l m).

Definition find_element (loc : locator) : SE (login_state D) web_element :=
  drv_call (EvFind loc) (drv_find_element loc).
Definition wait_present (t : nat) (loc : locator) : SE (login_state D) unit :=
  drv_call (EvWait t loc) (drv_wait_present t loc).
Definition send_keys (el : web_element) (keys : string) : SE (login_state D) unit :=
  drv_call (EvSendKeys el keys) (drv_send_keys el keys).
Definition click (el : web_element) : SE (login_state D) unit :=
  drv_call (EvClick el) (drv_click el).

(** [element.screenshot(path)]: selenium takes the element's PNG and
    writes it to [path]. *)
Definition element_screenshot (el : web_element) (path : string) : SE (login_state D) unit :=
  png <- drv_call (EvScreenshot el path) (drv_screenshot_png el) ;;
  se_modify (λ s, set_fs (<[path := png]> (ls_fs s)) s).

(** [self.captcha_solver.solve(captcha_path)]: reads the file, logs. *)
Definition run_solve (solver : CaptchaSolver) (path : string) : SE (login_state D) string :=
  fs <- se_gets ls_fs ;;
  se_zoom ls_log set_log (solve solver fs path).

(** Lines 139-146: log the attempt, load the page, wait for the form,
    find the captcha image. *)
Definition attempt_navigate (self : AUInfoExtractor) (max_retries attempt : Z) :
    SE (login_state D) web_element :=
  logger INFO (MsgLoginAttempt (attempt + 1)%Z max_retries) ;;
  drv_call (EvGet (login_url self)) (drv_get (login_url self)) ;;
  wait_present 10 (ByName "username") ;;
  find_element (ById "captchaImage").

(** Lines 147-148: assign [captcha_path], save the screenshot there. *)
Definition attempt_capture (captcha_elem : web_element) (attempt : Z) :
    SE (login_state D) string :=
  let captcha_path := temp_captcha_path attempt in
  se_modify (set_captcha_path (Some captcha_path)) ;;
  element_screenshot captcha_elem captcha_path ;;
  se_ret captcha_path.

(** Lines 150-166: solve, fill in the form, submit, wait for the
    dashboard, [return True]. *)
Definition attempt_submit (self : AUInfoExtractor) (username password captcha_path : string) :
    SE (login_state D) (loop_ctl bool) :=
  captcha_solution <- run_solve (captcha_solver self) captcha_path ;;
  logger INFO (MsgCaptchaSolution captcha_solution) ;;
  e <- find_element (ByName "username") ;; send_keys e username ;;
  e <- find_element (ByName "password") ;; send_keys e password ;;
  e <- find_element (ByName "captcha") ;; send_keys e captcha_solution ;;
  e <- find_element (ByName "login") ;; click e ;;
  wait_present 5 (ByClassName "dashboard") ;;
  logger INFO MsgLoginSuccessful ;;
  se_ret (LReturn true).

(** Lines 168-178: [except TimeoutException] and [except Exception]. *)
Definition attempt_handler (max_retries attempt : Z) (e : exn) : SE (login_state D) (loop_ctl bool) :=
  if is_timeout e then
    logger WARNING (MsgAttemptTimeout (attempt + 1)%Z) ;;
    (if decide (attempt = max_retries - 1)%Z then se_raise e else se_ret LContinue)
  else
    logger ERROR (MsgAttemptFailed (attempt + 1)%Z e) ;;
    (if decide (attempt = max_retries - 1)%Z then se_raise e else se_ret LContinue).

(** Lines 180-182: [if os.path.exists(captcha_path): os.remove(captcha_path)]. *)
Definition attempt_finally : SE (login_state D) unit :=
  p <- se_gets ls_captcha_path ;;
  match p with
  | None => se_raise (UnboundLocalError "captcha_path")
  | Some captcha_path =>
      fs <- se_gets ls_fs ;;
      if os_path_exists fs captcha_path
      then se_modify (λ s, set_fs (os_remove (ls_fs s) captcha_path) s)
      else se_ret ()
  end.

(** One iteration of the loop (lines 138-182). *)
Definition login_attempt (self : AUInfoExtractor) (username password : string)
    (max_retries attempt : Z) : SE (login_state D) (loop_ctl bool) :=
  py_try
    (captcha_elem <- attempt_navigate self max_retries attempt ;;
     captcha_path <- attempt_capture captcha_elem attempt ;;
     attempt_submit self username password captcha_path)
    (attempt_handler max_retries attempt)
    attempt_finally.

(** [login] (lines 135-184); the local [captcha_path] starts unassigned. *)
Definition login (self : AUInfoExtractor) (username password : string) (max_retries : Z) :
    SE (login_state D) bool :=
  se_modify (set_captcha_path None) ;;
  r <- py_for (py_range max_retries) (login_attempt self username password max_retries) ;;
  match r with
  | Some b => se_ret b
  | None => se_ret false
  end.
End Login.

(** The part of the state the cleanup argument follows. *)
Definition fs_path {D} (s : login_state D) : files * option string := (ls_fs s, ls_captcha_path s).

(** Every file is one of [fs0], except possibly the one at the assigned
    [captcha_path]. *)
Definition clean_but_path (fs0 : files) (x : files * option string) : Prop :=
  match x.2 with
  | None => x.1 ⊆ fs0
  | Some p => delete p x.1 ⊆ fs0
  end.

(** The driver calls of a state's trace that satisfy [p]. *)
Definition trace_filter {D} (p : drv_event → bool) (s : login_state D) : list drv_event :=
  List.filter p (ls_trace s).



(** ** Scenarios *)

(** The extractor with the cell-shaped library [deployed_solver]. *)
Definition deployed_extractor : AUInfoExtractor := {|
  captcha_solver := deployed_solver;
  base_url := base_url AUInfoExtractor_init;
  login_url := login_url AUInfoExtractor_init;
  marks_url := marks_url AUInfoExtractor_init
|}.

(** A fresh call: empty directory, log and trace; the portal serves the
    A1B2C3 captcha, the form always appears, and the dashboard appears
    from the [k]-th page load on. *)
Definition portal_state (user_timeouts : list nat) (k : nat) : login_state scripted_state :=
  MkLoginState (MkScripted (MkScript (raw_encode a1b2c3_matrix) user_timeouts k []) 0) ∅ [] [] None.

(** What one successful submission adds to the trace's form events. *)
Definition form_events (username password solution : string) : list drv_event :=
  [EvSendKeys (WebElement (ByName "username")) username;
   EvSendKeys (WebElement (ByName "password")) password;
   EvSendKeys (WebElement (ByName "captcha")) solution;
   EvClick (WebElement (ByName "login"))].

(** * Lemmas *)

Section LoginLemmas.
Context `{C : ImageCodec} {D : Type} `{Dr : Driver D}.

Lemma drv_call_keeps {A} ev (op : D → D * res A) : se_keeps fs_path (drv_call ev op).
Proof. intros s. unfold drv_call. by destruct (op (ls_driver s)). Qed.

Lemma logger_keeps l m : se_keeps fs_path (logger (D:=D) l m).
Proof. by apply keeps_zoom. Qed.

Lemma run_solve_keeps solver p : se_keeps fs_path (run_solve (D:=D) solver p).
Proof. unfold run_solve. apply keeps_bind; [apply keeps_gets|]. intros. by apply keeps_zoom. Qed.

#[local] Hint Resolve drv_call_keeps logger_keeps run_solve_keeps : scraper.

Lemma navigate_keeps self mr a : se_keeps fs_path (attempt_navigate (D:=D) self mr a).
Proof. unfold attempt_navigate, wait_present, find_element. solve_keeps. Qed.

Lemma submit_keeps self u pw p : se_keeps fs_path (attempt_submit (D:=D) self u pw p).
Proof. unfold attempt_submit, wait_present, find_element, send_keys, click. solve_keeps. Qed.

Lemma handler_keeps mr a e : se_keeps fs_path (attempt_handler (D:=D) mr a e).
Proof. unfold attempt_handler. destruct (is_timeout e); solve_keeps. Qed.

Lemma subseteq_clean fs0 (s : login_state D) :
  ls_fs s ⊆ fs0 → clean_but_path fs0 (fs_path s).
Proof.
  unfold clean_but_path, fs_path. simpl. destruct (ls_captcha_path s); [|done].
  intros H. etrans; [apply delete_subseteq|done].
Qed.

(** Assigning [captcha_path] and writing the screenshot there leaves
    every other file as it was. *)
Lemma capture_clean fs0 el a :
  hoare (λ s : login_state D, ls_fs s ⊆ fs0) (attempt_capture el a)
        (λ _ s, clean_but_path fs0 (fs_path s)).
Proof.
  intros s Hs. unfold attempt_capture, element_screenshot, drv_call, se_bind, se_modify, se_ret.
  simpl. destruct (drv_screenshot_png el (ls_driver s)) as [d [png|e]];
    unfold clean_but_path; simpl.
  - rewrite delete_insert_eq. etrans; [apply delete_subseteq|done].
  - etrans; [apply delete_subseteq|done].
Qed.

(** The [finally] block removes the file at [captcha_path], if any. *)
Lemma finally_clean fs0 :
  hoare (λ s : login_state D, clean_but_path fs0 (fs_path s)) attempt_finally
        (λ _ s, ls_fs s ⊆ fs0).
Proof.
  intros s. unfold attempt_finally, clean_but_path, fs_path, se_bind, se_gets; simpl.
  destruct (ls_captcha_path s) as [p|]; simpl; [|done].
  unfold os_path_exists, os_remove. case_bool_decide as Hex; simpl; [done|].
  rewrite delete_id; [done|]. by apply eq_None_not_Some.
Qed.

(** One attempt: whatever happens, no file is left beyond those of the
    start of the attempt. *)
Lemma login_attempt_clean fs0 self u pw mr a :
  hoare (λ s : login_state D, ls_fs s ⊆ fs0) (login_attempt self u pw mr a)
        (λ _ s, ls_fs s ⊆ fs0).
Proof.
  apply (hoare_try _ _ _ _ (λ _ s, clean_but_path fs0 (fs_path s))
                           (λ _ s, clean_but_path fs0 (fs_path s))).
  - apply (hoare_conseq _ (λ s, ls_fs s ⊆ fs0) _ _ (λ _ s, clean_but_path fs0 (fs_path s)));
      [|done|by intros [] ? ?].
    apply (hoare_bind_uniform _ _ _ (λ s, ls_fs s ⊆ fs0)).
    + apply (hoare_keeps fs_path _ (λ x, x.1 ⊆ fs0)), navigate_keeps.
    + apply subseteq_clean.
    + intros el. apply (hoare_bind_uniform _ _ _ (λ s, clean_but_path fs0 (fs_path s)));
        [apply capture_clean|done|].
      intros p. apply (hoare_keeps fs_path _ (clean_but_path fs0)), submit_keeps.
  - intros e. apply (hoare_keeps fs_path _ (clean_but_path fs0)), handler_keeps.
  - intros r.
    apply (hoare_conseq _ (λ s, clean_but_path fs0 (fs_path s)) _ _ (λ _ s, ls_fs s ⊆ fs0));
      [apply finally_clean|done|by intros [] ? ?].
Qed.
(** ** What an attempt returns *)

Lemma handler_returns mr a e :
  se_returns (λ c, c = LContinue ∧ a ≠ (mr - 1)%Z) (attempt_handler (D:=D) mr a e).
Proof.
  unfold attempt_handler. destruct (is_timeout e); apply returns_bind; intros _;
    case_decide; [apply returns_raise|by apply returns_ret|apply returns_raise|by apply returns_ret].
Qed.

Lemma submit_returns self u pw p :
  se_returns (λ c, c = LReturn true) (attempt_submit (D:=D) self u pw p).
Proof. unfold attempt_submit. repeat (apply returns_bind; intros ?). by apply returns_ret. Qed.

(** An attempt returns [True] or continues, and it continues only when it
    is not the last one. *)
Lemma attempt_returns self u pw mr a :
  se_returns (λ c, c = LReturn true ∨ (c = LContinue ∧ a ≠ (mr - 1)%Z))
             (login_attempt (D:=D) self u pw mr a).
Proof.
  apply returns_try.
  - do 2 (apply returns_bind; intros ?).
    eapply returns_impl; [apply submit_returns|]. auto.
  - intros e. eapply returns_impl; [apply handler_returns|]. auto.
Qed.

(** ** With the shipped library *)

Lemma run_solve_shipped_fails `{!ImageCodecLaws C} p :
  se_returns (λ _, False) (run_solve (D:=D) CaptchaSolver_init p).
Proof.
  intros s a. unfold run_solve, se_bind, se_gets, se_zoom. simpl.
  pose proof (solve_shipped_fails (ls_fs s) p (ls_log s)) as H.
  destruct (solve _ _ _ _) as [lg' [b|e]]; [by destruct (H b)|done].
Qed.

Lemma attempt_shipped_returns `{!ImageCodecLaws C} self u pw mr a :
  captcha_solver self = CaptchaSolver_init →
  se_returns (λ c, c = LContinue ∧ a ≠ (mr - 1)%Z) (login_attempt (D:=D) self u pw mr a).
Proof.
  intros Hself. apply returns_try; [|intros e; apply handler_returns].
  do 2 (apply returns_bind; intros ?). unfold attempt_submit. rewrite Hself.
  apply returns_bind_fail, run_solve_shipped_fails.
Qed.

Lemma drv_call_keeps_filter {A} (p : drv_event → bool) ev (op : D → D * res A) :
  p ev = false → se_keeps (trace_filter p) (drv_call ev op).
Proof.
  intros Hev s. unfold drv_call, trace_filter. destruct (op (ls_driver s)). simpl.
  rewrite List.filter_app. simpl. rewrite Hev. apply app_nil_r.
Qed.

Lemma drv_call_get_count {A} url (op : D → D * res A) (s : login_state D) :
  length (trace_filter is_get (drv_call (EvGet url) op s).1) = S (length (trace_filter is_get s)).
Proof.
  unfold drv_call, trace_filter. destruct (op (ls_driver s)). simpl.
  rewrite List.filter_app, length_app. simpl. lia.
Qed.

(** Decompose a program whose driver calls all miss the filter [p]. *)
Ltac keeps_filter :=
  repeat (intros; first
    [ apply keeps_bind
    | apply keeps_try
    | apply keeps_ret
    | apply keeps_raise
    | apply keeps_gets
    | apply drv_call_keeps_filter; reflexivity
    | apply keeps_zoom; done
    | apply keeps_modify; done
    | match goal with |- se_keeps _ (match ?x with _ => _ end) => destruct x end ]).

Lemma run_solve_keeps_filter p solver path :
  se_keeps (trace_filter p) (run_solve (D:=D) solver path).
Proof. unfold run_solve. keeps_filter. Qed.

(** With the shipped library an attempt sends no keys and clicks
    nothing. *)
Lemma attempt_shipped_keeps_filter `{!ImageCodecLaws C} self u pw mr a :
  captcha_solver self = CaptchaSolver_init →
  se_keeps (trace_filter is_submit) (login_attempt (D:=D) self u pw mr a).
Proof.
  intros Hself. unfold login_attempt. apply keeps_try.
  - apply keeps_bind; [unfold attempt_navigate, logger, wait_present, find_element; keeps_filter|].
    intros el. apply keeps_bind; [unfold attempt_capture, element_screenshot; keeps_filter|].
    intros p. unfold attempt_submit. rewrite Hself.
    apply keeps_bind_fail; [apply run_solve_keeps_filter|apply run_solve_shipped_fails].
  - intros e. unfold attempt_handler, logger. keeps_filter.
  - unfold attempt_finally. keeps_filter.
Qed.

Lemma py_range_lookup_inv n i x :
  py_range n !! i = Some x → (i < Z.to_nat n)%nat ∧ x = Z.of_nat i.
Proof.
  intros Hx. assert (i < Z.to_nat n)%nat as Hi.
  { rewrite <-length_py_range. by eapply lookup_lt_Some. }
  split; [done|]. rewrite py_range_lookup in Hx by done. congruence.
Qed.
(** ** Page loads *)

Lemma submit_keeps_gets self u pw p :
  se_keeps (trace_filter is_get) (attempt_submit (D:=D) self u pw p).
Proof.
  unfold attempt_submit, logger, find_element, send_keys, click, wait_present.
  apply keeps_bind; [apply run_solve_keeps_filter|]. keeps_filter.
Qed.

(** An attempt loads the page at most once. *)
Lemma attempt_gets n self u pw mr a :
  hoare (λ s : login_state D, length (trace_filter is_get s) ≤ n)%nat
        (login_attempt self u pw mr a)
        (λ _ s, length (trace_filter is_get s) ≤ S n)%nat.
Proof.
  set (R := λ s : login_state D, (length (trace_filter is_get s) ≤ S n)%nat).
  apply (hoare_try _ _ _ _ (λ _, R) (λ _, R)).
  - apply (hoare_conseq _ (λ s, length (trace_filter is_get s) ≤ n)%nat _ _ (λ _, R));
      [|done|by intros [] ? ?].
    apply (hoare_bind_uniform _ _ _ R); [|done|].
    + unfold attempt_navigate.
      apply (hoare_bind_uniform _ _ _ (λ s, length (trace_filter is_get s) ≤ n)%nat).
      { apply (hoare_keeps (trace_filter is_get) _ (λ l, length l ≤ n)%nat).
        unfold logger. keeps_filter. }
      { unfold R. intros. lia. }
      intros _. apply (hoare_bind_uniform _ _ _ R).
      { intros s Hs. unfold R. rewrite drv_call_get_count. lia. }
      { done. }
      intros _. apply (hoare_keeps (trace_filter is_get) _ (λ l, length l ≤ S n)%nat).
      unfold wait_present, find_element. keeps_filter.
    + intros el. apply (hoare_bind_uniform _ _ _ R); [|done|].
      * apply (hoare_keeps (trace_filter is_get) _ (λ l, length l ≤ S n)%nat).
        unfold attempt_capture, element_screenshot. keeps_filter.
      * intros p. apply (hoare_keeps (trace_filter is_get) _ (λ l, length l ≤ S n)%nat).
        apply submit_keeps_gets.
  - intros e. apply (hoare_keeps (trace_filter is_get) _ (λ l, length l ≤ S n)%nat).
    unfold attempt_handler, logger. keeps_filter.
  - intros r. apply (hoare_conseq _ R _ _ (λ _, R)); [|done|by intros [] ? ?].
    apply (hoare_keeps (trace_filter is_get) _ (λ l, length l ≤ S n)%nat).
    unfold attempt_finally. keeps_filter.
Qed.

Lemma py_range_first n : (1 ≤ n)%Z → ∃ rest, py_range n = 0%Z :: rest.
Proof.
  intros Hn. unfold py_range. destruct (Z.to_nat n) eqn:E; [lia|]. simpl. eauto.
Qed.

Lemma handler_keeps_trace mr a e : se_keeps ls_trace (attempt_handler (D:=D) mr a e).
Proof. unfold attempt_handler, logger. destruct (is_timeout e); solve_keeps. Qed.

(** ** Retry exhaustion on a browser that serves the form *)

(** What [handler] decides: retry, or re-raise on the last attempt. *)
Lemma handler_result mr a e (s : login_state D) :
  (attempt_handler mr a e s).2 = if decide (a = mr - 1)%Z then Err e else Ok LContinue.
Proof.
  unfold attempt_handler, logger, se_bind, se_zoom, log, se_modify.
  destruct (is_timeout e); simpl; by case_decide.
Qed.

(** A [finally] block with [captcha_path] assigned raises nothing and
    makes no driver call. *)
Lemma finally_assigned (s : login_state D) p :
  ls_captcha_path s = Some p →
  (attempt_finally s).2 = Ok () ∧ ls_trace (attempt_finally s).1 = ls_trace s.
Proof.
  intros Hp. unfold attempt_finally, se_bind, se_gets. simpl. rewrite Hp. simpl.
  by destruct (os_path_exists _ _).
Qed.

Lemma handler_keeps_driver mr a e : se_keeps ls_driver (attempt_handler (D:=D) mr a e).
Proof. unfold attempt_handler, logger. destruct (is_timeout e); solve_keeps. Qed.

Lemma finally_keeps_driver : se_keeps ls_driver (attempt_finally (D:=D)).
Proof. unfold attempt_finally. solve_keeps. Qed.

(** With the shipped library the submission fails in [solve], before any
    driver call. *)
Lemma submit_shipped_keeps_driver `{!ImageCodecLaws C} self u pw p :
  captcha_solver self = CaptchaSolver_init → se_keeps ls_driver (attempt_submit (D:=D) self u pw p).
Proof.
  intros Hself. unfold attempt_submit. rewrite Hself.
  apply keeps_bind_fail; [|apply run_solve_shipped_fails].
  unfold run_solve. solve_keeps.
Qed.

Section WellBehaved.
(** A browser on which, in every state satisfying [Inv], the login page
    loads, the form appears within 10 s and the captcha element is found
    and captured, each call preserving [Inv].  Nothing is assumed about
    the dashboard. *)
Variable self : AUInfoExtractor.
Variable Inv : D → Prop.
Hypothesis Hget : ∀ d, Inv d → (drv_get (login_url self) d).2 = Ok () ∧ Inv (drv_get (login_url self) d).1.
Hypothesis Hwait : ∀ d, Inv d →
  (drv_wait_present 10 (ByName "username") d).2 = Ok () ∧ Inv (drv_wait_present 10 (ByName "username") d).1.
Hypothesis Hfind : ∀ d, Inv d →
  (∃ el, (drv_find_element (ById "captchaImage") d).2 = Ok el) ∧ Inv (drv_find_element (ById "captchaImage") d).1.
Hypothesis Hshot : ∀ el d, Inv d →
  (∃ png, (drv_screenshot_png el d).2 = Ok png) ∧ Inv (drv_screenshot_png el d).1.

Lemma navigate_good mr a (s : login_state D) :
  Inv (ls_driver s) →
  ∃ s1 el, attempt_navigate self mr a s = (s1, Ok el) ∧ Inv (ls_driver s1) ∧
    trace_filter is_get s1 = trace_filter is_get s ++ [EvGet (login_url self)].
Proof.
  intros H0. unfold attempt_navigate, logger, wait_present, find_element, drv_call, se_bind, se_zoom, log, se_modify.
  simpl. pose proof (Hget (ls_driver s) H0) as [H1 I1].
  destruct (drv_get _ (ls_driver s)) as [d1 [[]|e]]; simpl in H1, I1; [|done]. simpl.
  pose proof (Hwait d1 I1) as [H2 I2].
  destruct (drv_wait_present _ _ d1) as [d2 [[]|e]]; simpl in H2, I2; [|done].
  simpl. destruct (Hfind d2 I2) as [[el H3] I3].
  destruct (drv_find_element _ d2) as [d3 [el'|e]]; simpl in H3, I3; [|done].
  do 2 eexists. split; [reflexivity|]. split; [done|]. unfold trace_filter. simpl. rewrite !List.filter_app. simpl. by rewrite !app_nil_r.
Qed.

Lemma capture_good el a (s : login_state D) :
  Inv (ls_driver s) →
  ∃ s2, attempt_capture el a s = (s2, Ok (temp_captcha_path a)) ∧ Inv (ls_driver s2) ∧
    ls_captcha_path s2 = Some (temp_captcha_path a) ∧ trace_filter is_get s2 = trace_filter is_get s.
Proof.
  intros H0. unfold attempt_capture, element_screenshot, drv_call, se_bind, se_modify, se_ret. simpl.
  destruct (Hshot el (ls_driver s) H0) as [[png H] I]. destruct (drv_screenshot_png el _) as [d [png'|e]];
    simpl in H, I; [|done].
  eexists. split; [reflexivity|]. split_and!; [done|done|]. unfold trace_filter. simpl.
  rewrite List.filter_app. simpl. apply app_nil_r.
Qed.

(** With the shipped library each attempt loads the page once, then
    retries, or re-raises if it is the last. *)
Lemma attempt_shipped_good `{!ImageCodecLaws C} u pw mr a (s : login_state D) :
  captcha_solver self = CaptchaSolver_init → Inv (ls_driver s) →
  ∃ s' r, login_attempt self u pw mr a s = (s', r) ∧ Inv (ls_driver s') ∧
    trace_filter is_get s' = trace_filter is_get s ++ [EvGet (login_url self)] ∧
    (if decide (a = mr - 1)%Z then ∃ e, r = Err e else r = Ok LContinue).
Proof.
  intros Hself H0. destruct (navigate_good mr a s H0) as (s1 & el & Hnav & I1 & Hg1).
  destruct (capture_good el a s1 I1) as (s2 & Hcap & I2 & Hp2 & Hg2).
  set (p := temp_captcha_path a) in *.
  assert (se_returns (λ _, False) (attempt_submit (D:=D) self u pw p)) as Hsub.
  { unfold attempt_submit. rewrite Hself. apply returns_bind_fail, run_solve_shipped_fails. }
  pose proof (submit_keeps self u pw p s2) as Hk3. pose proof (submit_keeps_gets self u pw p s2) as Hg3.
  pose proof (submit_shipped_keeps_driver self u pw p Hself s2) as Hd3.
  specialize (Hsub s2). destruct (attempt_submit self u pw p s2) as [s3 [x|e]] eqn:E3; [by destruct (Hsub x)|].
  unfold fs_path in Hk3. simpl in Hk3, Hg3. injection Hk3 as _ Hp3.
  unfold login_attempt, py_try. rewrite (se_bind_ok _ _ _ _ _ Hnav), (se_bind_ok _ _ _ _ _ Hcap), E3.
  pose proof (handler_result mr a e s3) as Hr4. pose proof (handler_keeps mr a e s3) as Hk4.
  pose proof (handler_keeps_trace mr a e s3) as Ht4.
  pose proof (handler_keeps_driver mr a e s3) as Hd4.
  destruct (attempt_handler mr a e s3) as [s4 r4]. unfold fs_path in Hk4. simpl in *. injection Hk4 as _ Hp4.
  destruct (finally_assigned s4 p) as [Hf5 Ht5]; [congruence|].
  pose proof (finally_keeps_driver s4) as Hd5.
  destruct (attempt_finally s4) as [s5 [[]|e']]; simpl in *; [|done].
  exists s5, r4. split; [done|]. split; [congruence|]. split.
  - unfold trace_filter in *. rewrite Ht5, Ht4, Hg3, Hg2. done.
  - rewrite Hr4. case_decide; eauto.
Qed.

(** The loop over the attempts [k, k + n) when [k + n = max_retries]. *)
Lemma loop_shipped_good `{!ImageCodecLaws C} u pw mr n k (s : login_state D) :
  captcha_solver self = CaptchaSolver_init → (k + S n = Z.to_nat mr)%nat → Inv (ls_driver s) →
  ∃ s' e, py_for (map Z.of_nat (seq k (S n))) (login_attempt self u pw mr) s = (s', Err e) ∧
    length (trace_filter is_get s') = (length (trace_filter is_get s) + S n)%nat.
Proof.
  intros Hself. revert k s. induction n as [|n IH]; intros k s Hk H0; simpl;
    destruct (attempt_shipped_good u pw mr (Z.of_nat k) s Hself H0) as (s1 & r & Ha & I1 & Hg & Hr);
    unfold se_bind; rewrite Ha.
  - rewrite decide_True in Hr by lia. destruct Hr as [e ->]. exists s1, e.
    split; [done|]. rewrite Hg, length_app. simpl. lia.
  - rewrite decide_False in Hr by lia. subst r.
    destruct (IH (S k) s1) as (s' & e & Hl & Hg'); [lia|done|]. exists s', e. split; [done|].
    rewrite Hg', Hg, length_app. simpl. lia.
Qed.
End WellBehaved.

(** ** The whole call *)

(** [login] leaves no file beyond those of [fs0] (the cleanup argument
    lifted through the loop). *)
Lemma login_clean fs0 self username password max_retries :
  hoare (λ s : login_state D, ls_fs s ⊆ fs0) (login self username password max_retries)
        (λ _ s, ls_fs s ⊆ fs0).
Proof.
  unfold login. apply (hoare_bind_uniform _ _ _ (λ s, ls_fs s ⊆ fs0)); [by intros ? ?|done|].
  intros _. apply (hoare_bind_uniform _ _ _ (λ s, ls_fs s ⊆ fs0)); [|done|].
  - apply (hoare_conseq _ ((λ (_ : nat) s, ls_fs s ⊆ fs0) 0%nat) _ _ (λ _ s, ls_fs s ⊆ fs0));
      [|done|done].
    apply (hoare_for _ _ (λ _ s, ls_fs s ⊆ fs0)); [|done]. intros i x _.
    apply (hoare_conseq _ (λ s, ls_fs s ⊆ fs0) _ _ (λ _ s, ls_fs s ⊆ fs0));
      [apply login_attempt_clean|done|by intros [[]|] ? ?].
  - intros [b|]; by apply hoare_ret.
Qed.

(** With at least one attempt, [login] can only return [True]. *)
Lemma login_returns_true self username password max_retries :
  (1 ≤ max_retries)%Z →
  se_returns (λ b, b = true) (login (D:=D) self username password max_retries).
Proof.
  intros Hmr s b.
  assert (hoare (λ _, (0 < Z.to_nat max_retries)%nat)
            (py_for (py_range max_retries) (login_attempt self username password max_retries))
            (λ r _, r ≠ Ok None ∧ r ≠ Ok (Some false))) as Hloop.
  { apply (hoare_for _ _ (λ i _, (i < Z.to_nat max_retries)%nat)).
    - intros i x Hx. apply py_range_lookup_inv in Hx as [Hi ->].
      eapply hoare_conseq; [apply hoare_returns, attempt_returns|done|].
      intros [[|b']|e] s' Hr; simpl.
      + destruct (Hr LContinue eq_refl) as [[=]|[_ Hne]]. lia.
      + destruct (Hr (LReturn b') eq_refl) as [[= ->]|[[=] _]]. done.
      + done.
    - intros s' Hlen. rewrite length_py_range in Hlen. lia. }
  unfold login, se_bind, se_modify. simpl.
  assert (0 < Z.to_nat max_retries)%nat as H0 by lia.
  specialize (Hloop (set_captcha_path None s) H0).
  destruct (py_for _ _ _) as [s2 [[b'|]|e]]; simpl in *; [|by destruct Hloop as [[] _]|done].
  intros [= <-]. destruct b'; [done|]. by destruct Hloop as [_ []].
Qed.

(** With the shipped library and at least one attempt, [login] always
    raises. *)
Lemma login_shipped_fails `{!ImageCodecLaws C} self username password max_retries :
  captcha_solver self = CaptchaSolver_init → (1 ≤ max_retries)%Z →
  se_returns (λ _, False) (login (D:=D) self username password max_retries).
Proof.
  intros Hself Hmr s b Hb. pose proof (login_returns_true self username password max_retries Hmr s b Hb).
  assert (se_returns (λ r, r = None)
            (py_for (py_range max_retries) (login_attempt (D:=D) self username password max_retries)))
    as Hnone.
  { apply returns_for. intros x. eapply returns_impl; [by apply attempt_shipped_returns|]. by intros ? [? _]. }
  revert Hb. unfold login, se_bind, se_modify. simpl.
  specialize (Hnone (set_captcha_path None s)).
  destruct (py_for _ _ _) as [s2 [r|e]]; simpl in *; [|done].
  rewrite (Hnone r eq_refl). intros [= <-]. by subst.
Qed.

(** ** Stale files *)








End LoginLemmas.

(** ** Properties *)

Section LoginProps.
Context `{C : ImageCodec} {D : Type} `{Dr : Driver D}.

(** C4: the cleanup guarantee.  Whatever the driver does and however
    [login] ends (returning, or raising on any path, including the
    [UnboundLocalError] of the [finally] block), every file in the
    working directory afterwards was there, with the same contents,
    before the call: no captured captcha image is left behind. *)
Theorem login_cleans_up self username password max_retries (s : login_state D) :
  ls_fs (login self username password max_retries s).1 ⊆ ls_fs s.
Proof. by apply (login_clean (ls_fs s)). Qed.

(** C10: [login] never returns [False] when [max_retries >= 1]: the last
    attempt re-raises instead of continuing, so the loop never runs off
    its end, and [return False] (line 184) is reached only when
    [max_retries <= 0].  The check [if not self.login(...)] of
    [extract_info] (line 232) can therefore only fire for a non-positive
    retry count. *)
Theorem login_never_returns_false self username password max_retries (s : login_state D) :
  (1 ≤ max_retries)%Z →
  (login self username password max_retries s).2 ≠ Ok false.
Proof. intros Hmr Hr. by pose proof (login_returns_true self username password max_retries Hmr s false Hr). Qed.

(** C2: the program as shipped cannot log in.  With the shipped
    template library (any extractor whose solver is
    [CaptchaSolver()], e.g. [AUInfoExtractor_init]), for every driver
    and every image codec, [login] never types into the form nor clicks
    [login] (no [send_keys] or [click] is added to the trace), and for
    [max_retries >= 1] it always raises. *)
Theorem login_shipped_never_submits `{!ImageCodecLaws C} self username password max_retries
    (s : login_state D) :
  captcha_solver self = CaptchaSolver_init →
  trace_filter is_submit (login self username password max_retries s).1 = trace_filter is_submit s ∧
  ((1 ≤ max_retries)%Z → ∃ e, (login self username password max_retries s).2 = Err e).
Proof.
  intros Hself. split.
  - revert s. unfold login. apply keeps_bind; [by apply keeps_modify|]. intros _.
    apply keeps_bind; [apply keeps_for; intros; by apply attempt_shipped_keeps_filter|].
    intros [b|]; apply keeps_ret.
  - intros Hmr. pose proof (login_shipped_fails self username password max_retries Hself Hmr s) as H.
    destruct (login _ _ _ _ s) as [s' [b|e]]; simpl; [by destruct (H b)|eauto].
Qed.

(** C11: [login] makes at most [max_retries] attempts: it loads the login
    page at most [max(0, max_retries)] times, whatever the driver does. *)
Theorem login_attempts_bounded self username password max_retries (s : login_state D) :
  (length (trace_filter is_get (login self username password max_retries s).1)
     ≤ length (trace_filter is_get s) + Z.to_nat max_retries)%nat.
Proof.
  set (g0 := length (trace_filter is_get s)).
  assert (hoare (λ s', length (trace_filter is_get s') = g0)
            (login self username password max_retries)
            (λ _ s', length (trace_filter is_get s') ≤ g0 + Z.to_nat max_retries)%nat) as H.
  { unfold login.
    apply (hoare_bind_uniform _ _ _ (λ s', length (trace_filter is_get s') = g0));
      [by intros ? ?|intros; lia|intros _].
    apply (hoare_bind_uniform _ _ _
             (λ s', length (trace_filter is_get s') ≤ g0 + Z.to_nat max_retries)%nat);
      [|done|intros [b|]; by apply hoare_ret].
    apply (hoare_conseq _ ((λ (i : nat) s', length (trace_filter is_get s') ≤ g0 + i) 0%nat)%nat
             _ _ (λ _ s', length (trace_filter is_get s') ≤ g0 + Z.to_nat max_retries)%nat);
      [|intros; simpl; lia|done].
    apply (hoare_for _ _ (λ i s', length (trace_filter is_get s') ≤ g0 + i)%nat).
    - intros i x Hx. apply py_range_lookup_inv in Hx as [Hi ->].
      eapply hoare_conseq; [apply (attempt_gets (g0 + i))|done|].
      intros [[|b]|e] s' Hs'; simpl; lia.
    - intros s'. rewrite length_py_range. done. }
  by apply H.
Qed.

(** C5: the [finally] block reads [captcha_path] before the first
    attempt has assigned it.  If the first attempt fails before line 147
    (the page does not load, the form does not appear within 10 s, or
    the captcha element is missing), the handler decides to retry, but
    the [finally] block raises [UnboundLocalError], which replaces both
    the retry and the original exception: [login] gives up after one
    attempt, whatever [max_retries] is. *)
Theorem login_first_attempt_unbound self username password max_retries (s : login_state D) s1 e :
  (1 ≤ max_retries)%Z →
  attempt_navigate self max_retries 0 (set_captcha_path None s) = (s1, Err e) →
  ∃ s', login self username password max_retries s = (s', Err (UnboundLocalError "captcha_path")) ∧
        ls_trace s' = ls_trace s1 ∧ ls_fs s' = ls_fs s.
Proof.
  intros Hmr Hnav. destruct (py_range_first max_retries Hmr) as [rest Hr].
  pose proof (navigate_keeps self max_retries 0 (set_captcha_path None s)) as Hk.
  rewrite Hnav in Hk. unfold fs_path in Hk. simpl in Hk. injection Hk as Hfs1 Hp1.
  destruct (attempt_handler max_retries 0 e s1) as [s2 r2] eqn:Eh.
  pose proof (handler_keeps max_retries 0 e s1) as Hk2. rewrite Eh in Hk2.
  unfold fs_path in Hk2. simpl in Hk2. injection Hk2 as Hfs2 Hp2.
  pose proof (handler_keeps_trace max_retries 0 e s1) as Ht2. rewrite Eh in Ht2. simpl in Ht2.
  exists s2. split; [|split; congruence].
  unfold login. erewrite se_bind_ok by reflexivity. apply se_bind_err. rewrite Hr. simpl.
  apply se_bind_err. unfold login_attempt, py_try. rewrite (se_bind_err _ _ _ _ _ Hnav), Eh.
  unfold attempt_finally, se_bind, se_gets. simpl. by rewrite Hp2, Hp1.
Qed.

(** C20: retry exhaustion (spec property 6) for the program as shipped.
    On a browser that always serves the login form and the captcha (in
    every state of an invariant [Inv] that its calls preserve), [login]
    with [max_retries >= 1] makes exactly [max_retries] attempts, each
    one loading the page once, and then raises the last attempt's
    exception. *)
Theorem login_shipped_exhausts_retries `{!ImageCodecLaws C} self username password max_retries
    (Inv : D → Prop) (s : login_state D) :
  captcha_solver self = CaptchaSolver_init → (1 ≤ max_retries)%Z →
  (∀ d, Inv d → (drv_get (login_url self) d).2 = Ok () ∧ Inv (drv_get (login_url self) d).1) →
  (∀ d, Inv d → (drv_wait_present 10 (ByName "username") d).2 = Ok () ∧
                Inv (drv_wait_present 10 (ByName "username") d).1) →
  (∀ d, Inv d → (∃ el, (drv_find_element (ById "captchaImage") d).2 = Ok el) ∧
                Inv (drv_find_element (ById "captchaImage") d).1) →
  (∀ el d, Inv d → (∃ png, (drv_screenshot_png el d).2 = Ok png) ∧ Inv (drv_screenshot_png el d).1) →
  Inv (ls_driver s) →
  ∃ s' e, login self username password max_retries s = (s', Err e) ∧
    length (trace_filter is_get s') = (length (trace_filter is_get s) + Z.to_nat max_retries)%nat.
Proof.
  intros Hself Hmr Hg Hw Hf Hs H0. destruct (Z.to_nat max_retries) as [|n] eqn:En; [lia|].
  destruct (loop_shipped_good self Inv Hg Hw Hf Hs username password max_retries n 0
              (set_captcha_path None s) Hself) as (s' & e & Hl & Hgl); [lia|done|].
  exists s', e. split; [|exact Hgl].
  unfold login, py_range. rewrite En. erewrite (se_bind_ok (se_modify _) _ s); [|reflexivity].
  by rewrite (se_bind_err _ _ _ _ _ Hl).
Qed.



End LoginProps.

(** ** Witnesses and scenarios *)

Lemma login_never_returns_false_witness :
  (login (C:=raw_codec) deployed_extractor "student" "secret" 3 (portal_state [] 1)).2 ≠ Ok false.
Proof. apply login_never_returns_false. lia. Defined.

Lemma login_shipped_never_submits_witness :
  trace_filter is_submit
    (login (C:=raw_codec) AUInfoExtractor_init "student" "secret" 3 (portal_state [] 1)).1 =
  trace_filter is_submit (portal_state [] 1) ∧
  ((1 ≤ 3)%Z → ∃ e, (login (C:=raw_codec) AUInfoExtractor_init "student" "secret" 3 (portal_state [] 1)).2 = Err e).
Proof. apply (login_shipped_never_submits (C:=raw_codec)). reflexivity. Defined.

Lemma login_first_attempt_unbound_witness :
  ∃ s', login (C:=raw_codec) AUInfoExtractor_init "student" "secret" 3 (portal_state [1%nat] 1) =
          (s', Err (UnboundLocalError "captcha_path")) ∧
        ls_trace s' =
          ls_trace (attempt_navigate AUInfoExtractor_init 3 0
                      (set_captcha_path None (portal_state [1%nat] 1))).1 ∧
        ls_fs s' = ls_fs (portal_state [1%nat] 1).
Proof.
  apply (login_first_attempt_unbound (C:=raw_codec) _ _ _ _ _ _ TimeoutException);
    [lia|vm_compute; reflexivity].
Defined.

(** Scenario: spec property 8, with a library that can read
    the captcha: the dashboard does not appear after the first two
    submissions and appears after the third.  [login] returns [True]
    after exactly three page loads, each attempt typed the user name, the
    password and ["A1B2C3"] and clicked [login], and no captcha image is
    left in the directory. *)
Example login_succeeds_on_third_attempt :
  let r := login (C:=raw_codec) deployed_extractor "student" "secret" 3 (portal_state [] 3) in
  r.2 = Ok true ∧ ls_fs r.1 = ∅ ∧ length (trace_filter is_get r.1) = 3%nat ∧
  trace_filter is_submit r.1 = concat (replicate 3 (form_events "student" "secret" "A1B2C3")).
Proof. vm_compute. split_and!; reflexivity. Qed.

(** Scenario: the same portal with the program as shipped: every attempt fails
    in [solve] with numpy's [ValueError], which is logged with its attempt
    number; after the third attempt the [ValueError] propagates.  The
    form is never filled in and no captcha image is left. *)
Example login_shipped_fails_three_times :
  let r := login (C:=raw_codec) AUInfoExtractor_init "student" "secret" 3 (portal_state [] 1) in
  r.2 = Err (ValueError "operands could not be broadcast together") ∧
  ls_fs r.1 = ∅ ∧ length (trace_filter is_get r.1) = 3%nat ∧ trace_filter is_submit r.1 = [] ∧
  List.filter (λ l, match log_message l with MsgAttemptFailed _ _ => true | _ => false end) (ls_log r.1) =
    map (λ k, LogRec ERROR (MsgAttemptFailed k (ValueError "operands could not be broadcast together")))
        [1; 2; 3]%Z.
Proof. vm_compute. split_and!; reflexivity. Qed.

Lemma login_shipped_exhausts_retries_witness :
  ∃ s' e, login (C:=raw_codec) AUInfoExtractor_init "student" "secret" 3 (portal_state [] 1) = (s', Err e) ∧
    length (trace_filter is_get s') = (length (trace_filter is_get (portal_state [] 1)) + Z.to_nat 3)%nat.
Proof.
  apply (login_shipped_exhausts_retries (C:=raw_codec) _ _ _ _ (λ d, sc_user_timeouts (ss_script d) = [])).
  - reflexivity.
  - lia.
  - intros d Hd. by split.
  - intros d Hd. simpl. unfold scripted_wait. rewrite Hd, decide_True by done. simpl.
    by split.
  - intros d Hd. simpl. split; [eauto|done].
  - intros el d Hd. simpl. split; [eauto|done].
  - reflexivity.
Defined.


