(* ===== verification/Marks.v ===== *)
(** * MarksExtraction, [extract_info] and the command line

    [extract_marks] (lines 186-224) loads the marks page, picks the
    semester when one is given, waits for the table and reads every row
    after the first into a [subject_data] record (the dict of lines
    210-217).  [setup_driver] (119-133) starts Chrome, [extract_info]
    (226-244) runs setup, [login] and [extract_marks] and quits the driver
    in its [finally] block, and [main] (246-277) prints the subjects or
    writes them as JSON, exiting with status 1 on any error.

    The state of [extract_info] and [main] is [app_state]: the state of
    [login] ([login_state]), the local [driver] of [extract_info]
    ([app_driver]: whether it has been assigned), and standard output
    (one string per [print] call). *)

From S2P Require Import Prelude PyRuntime Numpy Templates Preprocess Matcher Solver Driver Login.
Local Open Scope py_scope.

(** The dict built at lines 210-217. *)
Record subject_data : Type := MkSubject {
  sd_code : string;
  sd_name : string;
  sd_internal : string;
  sd_external : string;
  sd_total : string;
  sd_result : string
}.

(** Python's truth value of [None] or a [str]: [Some s] for a non-empty
    string. *)
Definition py_truthy (o : option string) : option string :=
  match o with
  | Some s => if bool_decide (s = "") then None else Some s
  | None => None
  end.

(** [f"//option[text()='{semester}']"] *)
Definition semester_xpath (semester : string) : string :=
  "//option[text()='" +:+ semester +:+ "']".

Record app_state (D : Type) : Type := MkApp {
  app_ls : login_state D;
  app_driver : bool;
  app_stdout : list string
}.
Arguments MkApp {D} _ _ _.
Arguments app_ls {D} _.
Arguments app_driver {D} _.
Arguments app_stdout {D} _.

Definition set_ls {D} (ls : login_state D) (a : app_state D) : app_state D :=
  MkApp ls (app_driver a) (app_stdout a).
Definition set_driver {D} (b : bool) (a : app_state D) : app_state D :=
  MkApp (app_ls a) b (app_stdout a).
Definition set_stdout {D} (out : list string) (a : app_state D) : app_state D :=
  MkApp (app_ls a) (app_driver a) out.

(** The command-line arguments after [parser.parse_args()] (lines
    247-253); [argparse] itself is not modelled. *)
Record cli_args : Type := MkArgs {
  arg_username : string;
  arg_password : string;
  arg_semester : option string;
  arg_output : option string
}.

(** ["\n"] *)
Definition newline : string := String (Ascii.ascii_of_nat 10) "".

(** The five [print] calls of lines 269-273 for one subject. *)
Definition print_subject (subject : subject_data) : list string :=
  [newline +:+ "Subject: " +:+ sd_name subject +:+ " (" +:+ sd_code subject +:+ ")";
   "Internal: " +:+ sd_internal subject;
   "External: " +:+ sd_external subject;
   "Total: " +:+ sd_total subject;
   "Result: " +:+ sd_result subject].

Section Marks.
Context {D : Type} `{Dr : Driver D}.

(** [el.find_elements(loc)]: the matches, in document order. *)
Definition find_elements (el : web_element) (loc : locator) : SE (login_state D) (list web_element) :=
  n <- drv_call (EvFindElements el loc) (drv_find_elements el loc) ;;
  se_ret (map (ChildElement el loc) (seq 0 n)).

(** [el.text] *)
Definition element_text (el : web_element) : SE (login_state D) string :=
  drv_call (EvText el) (drv_text el).

(** [cols[i].text]: [IndexError] past the end of [cols]. *)
Definition col_text (cols : list web_element) (i : nat) : SE (login_state D) string :=
  match cols !! i with
  | Some col => element_text col
  | None => se_raise (IndexError "list index out of range")
  end.

(** Lines 209-217: one row, the dict's values read left to right. *)
Definition read_row (row : web_element) : SE (login_state D) subject_data :=
  cols <- find_elements row (ByTagName "td") ;;
  code <- col_text cols 0 ;;
  name <- col_text cols 1 ;;
  internal <- col_text cols 2 ;;
  external <- col_text cols 3 ;;
  total <- col_text cols 4 ;;
  result <- col_text cols 5 ;;
  se_ret (MkSubject code name internal external total result).

(** Lines 208-218: [for row in rows[1:]: ... marks_data.append(...)]. *)
Fixpoint read_rows (rows : list web_element) (marks_data : list subject_data) :
    SE (login_state D) (list subject_data) :=
  match rows with
  | [] => se_ret marks_data
  | row :: rows' =>
      subject_data <- read_row row ;;
      read_rows rows' (marks_data ++ [subject_data])
  end.

(** Lines 191-196: select the semester when one is given. *)
Definition select_semester (semester : option string) : SE (login_state D) unit :=
  match py_truthy semester with
  | Some sem =>
      semester_select <- find_element (ByName "semester") ;;
      click semester_select ;;
      semester_option <- find_element (ByXPath (semester_xpath sem)) ;;
      click semester_option
  | None => se_ret ()
  end.

(** [extract_marks] (lines 186-224). *)
Definition extract_marks (self : AUInfoExtractor) (semester : option string) :
    SE (login_state D) (list subject_data) :=
  py_try_except
    (drv_call (EvGet (marks_url self)) (drv_get (marks_url self)) ;;
     select_semester semester ;;
     wait_present 10 (ByClassName "marks-table") ;;
     marks_table <- find_element (ByClassName "marks-table") ;;
     rows <- find_elements marks_table (ByTagName "tr") ;;
     read_rows (drop 1 rows) [])
    (λ e, logger ERROR (MsgExtractMarksError e) ;; se_raise e).

(** [setup_driver] (lines 119-133): [webdriver.Chrome(options)] and
    [implicitly_wait(10)]; the options are not modelled. *)
Definition setup_driver : SE (login_state D) unit :=
  py_try_except
    (drv_call EvStart drv_start)
    (λ e, logger ERROR (MsgSetupDriverError e) ;; se_raise e).

Definition on_ls {A} (c : SE (login_state D) A) : SE (app_state D) A :=
  se_zoom app_ls set_ls c.
End Marks.

Section Info.
Context `{C : ImageCodec} {D : Type} `{Dr : Driver D}.

(** Lines 242-244: [if driver: driver.quit()]. *)
Definition extract_info_finally : SE (app_state D) unit :=
  driver <- se_gets app_driver ;;
  if driver then on_ls (drv_call EvQuit drv_quit) else se_ret ().

(** [extract_info] (lines 226-244); [login] with its default
    [max_retries=3]. *)
Definition extract_info (self : AUInfoExtractor) (username password : string)
    (semester : option string) : SE (app_state D) (list subject_data) :=
  se_modify (set_driver false) ;;
  py_try
    (on_ls setup_driver ;;
     se_modify (set_driver true) ;;
     logged_in <- on_ls (login self username password 3) ;;
     (if negb logged_in
      then se_raise (RuntimeException "Failed to login after maximum retries")
      else se_ret ()) ;;
     marks_data <- on_ls (extract_marks self semester) ;;
     se_ret marks_data)
    (λ e, on_ls (logger ERROR (MsgExtractionError e)) ;; se_raise e)
    extract_info_finally.

Definition print_lines (lines : list string) : SE (app_state D) unit :=
  se_modify (λ a, set_stdout (app_stdout a ++ lines) a).

Section Main.
(** [json.dump(marks_data, f, indent=2)]: the bytes written. *)
Variable json_dump : list subject_data → list Byte.byte.

(** Lines 259-273: save or print a non-empty result. *)
Definition output_marks (args : cli_args) (marks_data : list subject_data) : SE (app_state D) unit :=
  if bool_decide (marks_data = []) then se_ret () else
  match py_truthy (arg_output args) with
  | Some output =>
      on_ls (se_modify (λ s, set_fs (<[output := json_dump marks_data]> (ls_fs s)) s)) ;;
      on_ls (logger INFO (MsgMarksSaved output))
  | None =>
      py_for marks_data (λ subject, print_lines (print_subject subject) ;; se_ret (@LContinue unit)) ;;
      se_ret ()
  end.

(** Lines 255-277, for the extractor built at line 256: [main] is
    [main_with AUInfoExtractor_init].  [sys.exit(1)] raises
    [SystemExit], which [except Exception] does not catch. *)
Definition main_with (extractor : AUInfoExtractor) (args : cli_args) : SE (app_state D) unit :=
  py_try_except
    (marks_data <- extract_info extractor (arg_username args) (arg_password args) (arg_semester args) ;;
     output_marks args marks_data)
    (λ e, on_ls (logger ERROR (MsgMainError e)) ;; se_raise (SystemExit 1)).

Definition main (args : cli_args) : SE (app_state D) unit :=
  main_with AUInfoExtractor_init args.
End Main.
End Info.

(** The marks of one table row [r], read as [extract_marks] reads it. *)
Definition subject_of_row (r : list string) : subject_data :=
  let cell j := default "" (r !! j) in
  MkSubject (cell 0) (cell 1) (cell 2) (cell 3) (cell 4) (cell 5).

(** The part of the application state that the no-output argument
    follows: the working directory and standard output. *)
Definition app_out {D} (a : app_state D) : files * list string := (ls_fs (app_ls a), app_stdout a).

(** The [i]-th row of the marks table, as [marks_table.find_elements]
    returns it. *)
Definition table_row (i : nat) : web_element :=
  ChildElement (WebElement (ByClassName "marks-table")) (ByTagName "tr") i.

(** What reading the rows of [tbl] from the [i]-th on gives after the
    records [acc]: every row needs six cells. *)
Definition rows_result (tbl : list (list string)) (i : nat) (acc : list subject_data) :
    res (list subject_data) :=
  if decide (Forall (λ r, 6 ≤ length r)%nat (drop i tbl))
  then Ok (acc ++ map subject_of_row (drop i tbl))
  else Err (IndexError "list index out of range").

(** ** Scenarios *)

(** A marks table: a header row and two subjects. *)
Definition sample_table : list (list string) :=
  [["Code"; "Subject"; "Internal"; "External"; "Total"; "Result"];
   ["CS3401"; "Algorithms"; "38"; "52"; "90"; "PASS"];
   ["MA3354"; "Discrete Mathematics"; "30"; "41"; "71"; "PASS"]].

(** The marks page of a logged-in session, showing [tbl]. *)
Definition marks_page (tbl : list (list string)) : login_state scripted_state :=
  MkLoginState (MkScripted (MkScript [] [] 0 tbl) 1) ∅ [] [] None.

(** A fresh run of the tool against a portal that serves the A1B2C3
    captcha, accepts the first submission and shows [sample_table]. *)
Definition sample_run : app_state scripted_state :=
  MkApp (MkLoginState (MkScripted (MkScript (raw_encode a1b2c3_matrix) [] 1 sample_table) 0) ∅ [] [] None)
        false [].

(** * Lemmas *)

Section InfoLemmas.
Context `{C : ImageCodec} {D : Type} `{Dr : Driver D}.

Lemma keeps_on_ls {T A} (f : login_state D → T) (c : SE (login_state D) A) :
  se_keeps f c → se_keeps (λ a, f (app_ls a)) (on_ls c).
Proof. intros Hc a. unfold on_ls, se_zoom. specialize (Hc (app_ls a)). by destruct (c (app_ls a)). Qed.

Lemma keeps_on_ls_other {T A} (f : app_state D → T) (c : SE (login_state D) A) :
  (∀ ls a, f (set_ls ls a) = f a) → se_keeps f (on_ls c).
Proof. intros Hf. by apply keeps_zoom. Qed.

Lemma hoare_on_ls {A} P (c : SE (login_state D) A) Q :
  hoare P c Q → hoare (λ a, P (app_ls a)) (on_ls c) (λ r a, Q r (app_ls a)).
Proof. intros Hc a Ha. unfold on_ls, se_zoom. specialize (Hc _ Ha). by destruct (c (app_ls a)). Qed.

Lemma setup_driver_keeps : se_keeps fs_path (setup_driver (D:=D)).
Proof. unfold setup_driver, py_try_except, logger. solve_keeps; try apply drv_call_keeps. Qed.

Lemma find_elements_keeps el loc : se_keeps fs_path (find_elements (D:=D) el loc).
Proof. unfold find_elements. solve_keeps; try apply drv_call_keeps. Qed.

Lemma element_text_keeps el : se_keeps fs_path (element_text (D:=D) el).
Proof. apply drv_call_keeps. Qed.

Lemma read_rows_keeps rows acc : se_keeps fs_path (read_rows (D:=D) rows acc).
Proof.
  revert acc. induction rows as [|row rows IH]; intros acc; simpl; [apply keeps_ret|].
  apply keeps_bind; [|done]. unfold read_row, col_text.
  apply keeps_bind; [apply find_elements_keeps|]. intros cols.
  repeat (apply keeps_bind; [destruct (cols !! _); [apply element_text_keeps|apply keeps_raise]|intros ?]).
  apply keeps_ret.
Qed.

Lemma extract_marks_keeps self sem : se_keeps fs_path (extract_marks (D:=D) self sem).
Proof.
  unfold extract_marks, py_try_except, select_semester, logger, find_element, click, wait_present.
  apply keeps_try; [|intros; solve_keeps|apply keeps_ret].
  apply keeps_bind; [apply drv_call_keeps|intros _].
  apply keeps_bind; [destruct (py_truthy sem); solve_keeps; apply drv_call_keeps|intros _].
  apply keeps_bind; [apply drv_call_keeps|intros _].
  apply keeps_bind; [apply drv_call_keeps|intros t].
  apply keeps_bind; [apply find_elements_keeps|intros rows]. apply read_rows_keeps.
Qed.

#[local] Hint Resolve setup_driver_keeps extract_marks_keeps drv_call_keeps : scraper.

(** Lift a frame condition on [login_state] to the [app_out] of an
    [on_ls] step. *)
Lemma keeps_on_ls_out {A} (c : SE (login_state D) A) :
  se_keeps fs_path c → se_keeps app_out (on_ls c).
Proof.
  intros Hc a. unfold on_ls, se_zoom, app_out. specialize (Hc (app_ls a)).
  destruct (c (app_ls a)). unfold fs_path in Hc. simpl in *. congruence.
Qed.

(** [extract_info] writes no file it does not remove and prints nothing. *)
Lemma extract_info_out fs0 out0 self u pw sem :
  hoare (λ a : app_state D, ls_fs (app_ls a) ⊆ fs0 ∧ app_stdout a = out0)
        (extract_info self u pw sem)
        (λ _ a, ls_fs (app_ls a) ⊆ fs0 ∧ app_stdout a = out0).
Proof.
  set (R := λ a : app_state D, ls_fs (app_ls a) ⊆ fs0 ∧ app_stdout a = out0).
  assert (∀ A (c : SE (app_state D) A), se_keeps app_out c → hoare R c (λ _, R)) as Hk.
  { intros A c Hc a [Ha Hb]. unfold R. specialize (Hc a). unfold app_out in Hc.
    injection Hc as -> ->. done. }
  unfold extract_info. apply (hoare_bind_uniform _ _ _ R); [apply Hk; by apply keeps_modify|done|intros _].
  apply (hoare_try _ _ _ _ (λ _, R) (λ _, R)).
  - apply (hoare_conseq _ R _ _ (λ _, R)); [|done|by intros [] ? ?].
    apply (hoare_bind_uniform _ _ _ R); [apply Hk, keeps_on_ls_out; auto with scraper|done|intros _].
    apply (hoare_bind_uniform _ _ _ R); [apply Hk; by apply keeps_modify|done|intros _].
    apply (hoare_bind_uniform _ _ _ R); [|done|intros b].
    + intros a [Ha Hb]. split.
      * by apply (hoare_on_ls _ _ _ (login_clean fs0 self u pw 3)).
      * unfold on_ls, se_zoom. by destruct (login _ _ _ _ _).
    + apply (hoare_bind_uniform _ _ _ R); [destruct (negb b); apply Hk; solve_keeps|done|intros _].
      apply (hoare_bind_uniform _ _ _ R); [apply Hk, keeps_on_ls_out; auto with scraper|done|intros m].
      by apply hoare_ret.
  - intros e. apply Hk. apply keeps_bind; [|intros; apply keeps_raise].
    apply keeps_on_ls_out. unfold logger. by apply keeps_zoom.
  - intros r. apply (hoare_conseq _ R _ _ (λ _, R)); [|done|by intros [] ? ?].
    apply Hk. unfold extract_info_finally. apply keeps_bind; [apply keeps_gets|intros [|]].
    + apply keeps_on_ls_out, drv_call_keeps.
    + apply keeps_ret.
Qed.

(** The steps after [driver = self.setup_driver()] keep the local
    [driver] assigned. *)
Lemma on_ls_keeps_driver {A} (c : SE (login_state D) A) : se_keeps app_driver (on_ls c).
Proof. by apply keeps_on_ls_other. Qed.

#[local] Hint Resolve on_ls_keeps_driver : scraper.

Lemma drv_call_keeps_log {A} ev (op : D → D * res A) : se_keeps ls_log (drv_call ev op).
Proof. intros s. unfold drv_call. by destruct (op (ls_driver s)). Qed.

Lemma finally_keeps_log : se_keeps (λ a, ls_log (app_ls a)) (extract_info_finally (D:=D)).
Proof.
  unfold extract_info_finally. apply keeps_bind; [apply keeps_gets|intros [|]; [|apply keeps_ret]].
  apply keeps_on_ls, drv_call_keeps_log.
Qed.

(** The [finally] block quits the driver exactly when it was assigned. *)
Lemma finally_quits (a : app_state D) :
  app_driver a = true → last (ls_trace (app_ls (extract_info_finally a).1)) = Some EvQuit.
Proof.
  intros Ha. unfold extract_info_finally, se_bind, se_gets. simpl. rewrite Ha.
  unfold on_ls, se_zoom, drv_call. simpl. destruct (drv_quit _). simpl. apply last_snoc.
Qed.

(** After [se_modify (set_driver true)], steps that keep [driver] leave
    it assigned. *)
Lemma driver_set_then {A} (rest : SE (app_state D) A) (a : app_state D) :
  se_keeps app_driver rest → app_driver ((se_modify (set_driver true) ;; rest) a).1 = true.
Proof. intros H. unfold se_bind, se_modify. simpl. by rewrite H. Qed.

(** With the shipped library, [extract_info] always raises, after its
    handler has logged the error it caught. *)
Lemma extract_info_shipped_log `{!ImageCodecLaws C} self u pw sem (a : app_state D) :
  captcha_solver self = CaptchaSolver_init →
  ∃ a1 e0 e, extract_info self u pw sem a = (a1, Err e) ∧
    ∃ lg, ls_log (app_ls a1) = lg ++ [LogRec ERROR (MsgExtractionError e0)].
Proof.
  intros Hself. unfold extract_info. erewrite (se_bind_ok (se_modify _) _ a); [|reflexivity]. unfold py_try.
  match goal with |- context [match ?b (set_driver false a) with _ => _ end] => set (body := b) end.
  assert (se_returns (λ _, False) body) as Hb.
  { apply returns_bind; intros _. apply returns_bind; intros _.
    apply returns_bind_fail, returns_zoom. apply login_shipped_fails; [done|lia]. }
  specialize (Hb (set_driver false a)).
  destruct (body (set_driver false a)) as [a1 [x|e0]]; [by destruct (Hb x)|].
  unfold se_bind, on_ls, se_zoom, logger, log, se_modify. simpl.
  set (a2 := set_ls _ a1). pose proof (finally_keeps_log a2) as Hf.
  destruct (extract_info_finally a2) as [a3 [[]|e']]; simpl in Hf;
    do 3 eexists; (split; [reflexivity|]); rewrite Hf; eauto.
Qed.

(** [main] when [extract_info] raises [e]: the error is logged and the
    process exits with status 1. *)
Lemma main_with_err json ex args (a a1 : app_state D) e :
  extract_info ex (arg_username args) (arg_password args) (arg_semester args) a = (a1, Err e) →
  main_with json ex args a =
    (set_ls (set_log (ls_log (app_ls a1) ++ [LogRec ERROR (MsgMainError e)]) (app_ls a1)) a1,
     Err (SystemExit 1)).
Proof. intros H. unfold main_with. by rewrite (py_try_except_err _ _ _ _ _ (se_bind_err _ _ _ _ _ H)). Qed.

End InfoLemmas.

(** ** Reading a scripted table *)

(** One row of the scripted table: six [.text] reads, or [IndexError] at
    the first missing cell; only the trace changes. *)
Lemma read_row_scripted (s : login_state scripted_state) i r :
  sc_table (ss_script (ls_driver s)) !! i = Some r →
  ∃ tr, read_row (table_row i) s =
        (MkLoginState (ls_driver s) (ls_fs s) (ls_log s) tr (ls_captcha_path s),
         if decide (6 ≤ length r)%nat then Ok (subject_of_row r) else Err (IndexError "list index out of range")).
Proof.
  destruct s as [[[png ut k tbl] loads] fs lg tr cp]. simpl. intros Hr.
  unfold table_row, read_row, find_elements, col_text, element_text, drv_call, se_bind, se_ret, se_raise. simpl.
  rewrite Hr. simpl.
  do 6 (destruct r as [|? r]; [eexists; reflexivity|]).
  eexists. simpl. rewrite Hr. reflexivity.
Qed.



(** The rows from the [i]-th to the last. *)
Lemma read_rows_scripted n i acc (s : login_state scripted_state) :
  (n = length (sc_table (ss_script (ls_driver s))) - i)%nat →
  ∃ s', read_rows (map table_row (seq i n)) acc s = (s', rows_result (sc_table (ss_script (ls_driver s))) i acc) ∧
        ls_driver s' = ls_driver s ∧ ls_log s' = ls_log s ∧ ls_fs s' = ls_fs s.
Proof.
  revert i acc s. induction n as [|n IH]; intros i acc s Hn; simpl.
  - exists s. unfold rows_result. rewrite drop_ge by lia. simpl. by rewrite app_nil_r.
  - destruct (lookup_lt_is_Some_2 (sc_table (ss_script (ls_driver s))) i) as [r Hr]; [lia|].
    destruct (read_row_scripted s i r Hr) as [tr Hrow].
    unfold rows_result. rewrite (drop_S _ _ _ Hr).
    destruct (decide (6 ≤ length r)%nat) as [H6|H6].
    + rewrite (se_bind_ok _ _ _ _ _ Hrow).
      destruct (IH (S i) (acc ++ [subject_of_row r]) (MkLoginState (ls_driver s) (ls_fs s) (ls_log s) tr (ls_captcha_path s)))
        as (s' & Hrs & Hd & Hl & Hf); [simpl; lia|].
      exists s'. simpl in *. rewrite Hrs. unfold rows_result. rewrite <-app_assoc. simpl.
      split; [|done]. f_equal.
      destruct (decide (Forall _ (drop (S i) _))) as [Ha|Ha];
        destruct (decide (Forall _ (r :: _))) as [Hb|Hb]; try done; exfalso.
      * apply Hb. by constructor.
      * apply Ha. by inversion Hb.
    + rewrite (se_bind_err _ _ _ _ _ Hrow).
      exists (MkLoginState (ls_driver s) (ls_fs s) (ls_log s) tr (ls_captcha_path s)). split; [|done].
      rewrite decide_False; [done|]. intros Hf. inversion Hf. done.
Qed.

Lemma scripted_wait_other loc d :
  loc ≠ ByName "username" → loc ≠ ByClassName "dashboard" → scripted_wait loc d = Ok ().
Proof. intros H1 H2. unfold scripted_wait. by rewrite !decide_False. Qed.

Lemma drop_1_rows n :
  drop 1 (map (ChildElement (WebElement (ByClassName "marks-table")) (ByTagName "tr")) (seq 0 n)) =
  map table_row (seq 1 (n - 1)).
Proof. destruct n; [done|]. simpl. by rewrite Nat.sub_0_r. Qed.

(** [extract_marks] on a scripted page, whatever the semester. *)
Lemma extract_marks_scripted self sem (s : login_state scripted_state) :
  ∃ s', ls_log s' = ls_log s ∧ ls_fs s' = ls_fs s ∧
    extract_marks self sem s =
      match rows_result (sc_table (ss_script (ls_driver s))) 1 [] with
      | Ok m => (s', Ok m)
      | Err e => (set_log (ls_log s' ++ [LogRec ERROR (MsgExtractMarksError e)]) s', Err e)
      end.
Proof.
  destruct s as [[sc loads] fs lg tr cp]. simpl.
  unfold extract_marks, py_try_except, py_try.
  unfold select_semester, find_elements, wait_present, find_element, click, drv_call, se_bind, se_ret.
  destruct (py_truthy sem); cbn; rewrite drop_1_rows, scripted_wait_other by discriminate;
    match goal with |- context [read_rows _ [] ?s1] =>
      destruct (read_rows_scripted (length (sc_table sc) - 1) 1 [] s1) as (s' & Hrs & Hd & Hl & Hf);
      [done|] end;
    rewrite Hrs; exists s'; simpl in *; (split; [done|split; [done|]]);
    by destruct (rows_result _ _ _).
Qed.

(** ** Properties *)

Section InfoProps.
Context `{C : ImageCodec} {D : Type} `{Dr : Driver D}.

(** C1: the command-line tool as shipped always fails.  For every
    browser, image codec and JSON encoder and for every command line,
    [main] ends in [sys.exit(1)]; it prints nothing and leaves no file
    behind (no output file, no captcha image).  The log ends with the
    error twice, once from [extract_info] ("Error in information
    extraction") and once from [main] ("Error: ..."), where the spec asks
    for the final failure to be logged once. *)
Theorem main_shipped_exits_1 `{!ImageCodecLaws C} json_dump args (a : app_state D) :
  (main json_dump args a).2 = Err (SystemExit 1) ∧
  app_stdout (main json_dump args a).1 = app_stdout a ∧
  ls_fs (app_ls (main json_dump args a).1) ⊆ ls_fs (app_ls a) ∧
  ∃ lg e e', ls_log (app_ls (main json_dump args a).1) =
    lg ++ [LogRec ERROR (MsgExtractionError e); LogRec ERROR (MsgMainError e')].
Proof.
  destruct (extract_info_shipped_log AUInfoExtractor_init (arg_username args) (arg_password args)
              (arg_semester args) a) as (a1 & e0 & e & Hx & lg & Hlog); [done|].
  pose proof (extract_info_out (ls_fs (app_ls a)) (app_stdout a) AUInfoExtractor_init
                (arg_username args) (arg_password args) (arg_semester args) a (conj (reflexivity _) eq_refl))
    as Hout.
  rewrite Hx in Hout. destruct Hout as [Hfs Hstd]. simpl in Hfs, Hstd.
  unfold main. rewrite (main_with_err _ _ _ _ _ _ Hx). simpl.
  split_and!; [done|done|done|]. exists lg, e0, e. rewrite Hlog. by rewrite <-app_assoc.
Qed.

(** C8: [extract_info] releases the browser.  If Chrome starts, the last
    driver call of the run is [driver.quit()], however [login] and
    [extract_marks] end; if it does not start, [driver] is still [None]
    and the only driver call is the failed start. *)
Theorem extract_info_quits_driver self username password semester (a : app_state D) :
  match (drv_start (ls_driver (app_ls a))).2 with
  | Ok _ => last (ls_trace (app_ls (extract_info self username password semester a).1)) = Some EvQuit
  | Err _ => ls_trace (app_ls (extract_info self username password semester a).1) =
               ls_trace (app_ls a) ++ [EvStart]
  end.
Proof.
  unfold extract_info. erewrite (se_bind_ok (se_modify _) _ a); [|reflexivity]. unfold py_try.
  unfold se_bind at 1, on_ls at 1, se_zoom at 1, setup_driver, py_try_except, py_try, drv_call at 1.
  simpl. destruct (drv_start (ls_driver (app_ls a))) as [d [[]|e0]] eqn:Hst; simpl.
  - match goal with |- context [let (s1, r) := ?b ?a2 in _] =>
      assert (app_driver (b a2).1 = true) as Hd;
      [apply driver_set_then; solve_keeps; apply on_ls_keeps_driver|];
      destruct (b a2) as [a3 [x|e]]; simpl in Hd end;
    cbn [se_bind on_ls se_zoom se_raise logger log se_modify];
    match goal with |- context [extract_info_finally ?a4] =>
      pose proof (finally_quits a4) as Hq; destruct (extract_info_finally a4) as [a5 [[]|e']];
      simpl in *; by apply Hq end.
  - unfold se_bind, on_ls, se_zoom, logger, log, se_modify, se_raise, drv_call. simpl.
    rewrite Hst. reflexivity.
Qed.
End InfoProps.

Lemma main_shipped_exits_1_witness :
  (main (C:=raw_codec) (λ _, []) (MkArgs "student" "secret" None None) sample_run).2 = Err (SystemExit 1) ∧
  app_stdout (main (C:=raw_codec) (λ _, []) (MkArgs "student" "secret" None None) sample_run).1 =
    app_stdout sample_run ∧
  ls_fs (app_ls (main (C:=raw_codec) (λ _, []) (MkArgs "student" "secret" None None) sample_run).1) ⊆
    ls_fs (app_ls sample_run) ∧
  ∃ lg e e', ls_log (app_ls (main (C:=raw_codec) (λ _, []) (MkArgs "student" "secret" None None) sample_run).1) =
    lg ++ [LogRec ERROR (MsgExtractionError e); LogRec ERROR (MsgMainError e')].
Proof. apply (main_shipped_exits_1 (C:=raw_codec)). Defined.

(** C9: [extract_marks] reads the table.  On a page whose marks table has
    rows [tbl], each row after the header with at least six cells, the
    result is one record per row after the first, in order, whose fields
    are the first six cells (code, name, internal, external, total,
    result); nothing is logged and no file is touched.  This holds with
    or without a semester. *)
Theorem extract_marks_reads_table self semester (s : login_state scripted_state) :
  Forall (λ r, 6 ≤ length r)%nat (drop 1 (sc_table (ss_script (ls_driver s)))) →
  ∃ s', extract_marks self semester s =
          (s', Ok (map subject_of_row (drop 1 (sc_table (ss_script (ls_driver s)))))) ∧
        ls_log s' = ls_log s ∧ ls_fs s' = ls_fs s.
Proof.
  intros Hrows. destruct (extract_marks_scripted self semester s) as (s' & Hl & Hf & He).
  unfold rows_result in He. rewrite decide_True in He by done. eauto.
Qed.

Lemma extract_marks_reads_table_witness :
  ∃ s', extract_marks AUInfoExtractor_init (Some "5") (marks_page sample_table) =
          (s', Ok (map subject_of_row (drop 1 (sc_table (ss_script (ls_driver (marks_page sample_table))))))) ∧
        ls_log s' = ls_log (marks_page sample_table) ∧ ls_fs s' = ls_fs (marks_page sample_table).
Proof. apply extract_marks_reads_table. vm_decide. Defined.

(** C12: a table row after the header with fewer than six cells makes
    [cols[i].text] raise [IndexError]: the whole extraction fails, the
    error is logged once by [extract_marks] and re-raised; the rows read
    before it are lost. *)
Theorem extract_marks_short_row self semester (s : login_state scripted_state) :
  ¬ Forall (λ r, 6 ≤ length r)%nat (drop 1 (sc_table (ss_script (ls_driver s)))) →
  ∃ s', extract_marks self semester s = (s', Err (IndexError "list index out of range")) ∧
        ls_log s' = ls_log s ++ [LogRec ERROR (MsgExtractMarksError (IndexError "list index out of range"))] ∧
        ls_fs s' = ls_fs s.
Proof.
  intros Hrows. destruct (extract_marks_scripted self semester s) as (s' & Hl & Hf & He).
  unfold rows_result in He. rewrite decide_False in He by done.
  eexists. split; [exact He|]. simpl. by rewrite Hl, Hf.
Qed.

Lemma extract_marks_short_row_witness :
  ∃ s', extract_marks AUInfoExtractor_init None (marks_page (sample_table ++ [["Total"; "161"]])) =
          (s', Err (IndexError "list index out of range")) ∧
        ls_log s' = ls_log (marks_page (sample_table ++ [["Total"; "161"]])) ++
                      [LogRec ERROR (MsgExtractMarksError (IndexError "list index out of range"))] ∧
        ls_fs s' = ls_fs (marks_page (sample_table ++ [["Total"; "161"]])).
Proof. apply extract_marks_short_row. apply (bool_decide_eq_false_1 _). vm_compute. reflexivity. Defined.

(** Scenario: the whole tool, run with an extractor whose library reads the
    captcha, against a portal that accepts the first submission and shows
    [sample_table]: without [--output] it prints the five lines of each
    subject and exits normally; with [--output marks.json] it writes the
    JSON there and prints nothing; in both runs the browser is quit last
    and no captcha image is left. *)
Example main_prints_marks :
  let r := main_with (C:=raw_codec) (λ _, []) deployed_extractor (MkArgs "student" "secret" None None) sample_run in
  let w := main_with (C:=raw_codec) (λ _, [Byte.x5b; Byte.x5d]) deployed_extractor
             (MkArgs "student" "secret" None (Some "marks.json")) sample_run in
  r.2 = Ok () ∧ app_stdout r.1 = concat (map print_subject (map subject_of_row (drop 1 sample_table))) ∧
  ls_fs (app_ls r.1) = ∅ ∧ last (ls_trace (app_ls r.1)) = Some EvQuit ∧
  w.2 = Ok () ∧ app_stdout w.1 = [] ∧ ls_fs (app_ls w.1) = {[ "marks.json" := [Byte.x5b; Byte.x5d] ]} ∧
  last (ls_trace (app_ls w.1)) = Some EvQuit.
Proof. vm_compute. split_and!; reflexivity. Qed.
