(* ===== verification/Cli.v ===== *)
(** * The command line: [main]'s parser and the script entry

    Lines 247-253 build an [argparse.ArgumentParser] with the options
    [--username] and [--password] (required), [--semester] and
    [--output], and call [parse_args()] on [sys.argv[1:]].  The parser
    is modelled as argparse (CPython 3.11) runs it for these options:

    - [classify] gives each argument its kind, as
      [_parse_optional] / [_get_option_tuples] do: an exact option
      string, [--opt=value], a unique prefix of a long option ([--user]),
      ["-h"] followed by more characters, an unknown option, the
      separator ["--"] (every later argument is a value), or a value
      (an empty string, a string not starting with ['-'], ["-"], a
      negative number, a string with a space).  A prefix matching
      several options is an error before anything else is done.
    - [consume] runs the options left to right: a store option takes its
      explicit value or the next argument, which must be a value; a
      later occurrence overrides an earlier one; [-h] prints the help
      and exits with status 0; anything else is collected as an extra.
    - [finish] reports an error (status 2) when a required option is
      missing or extras remain.

    [main_argv] is [main] with its parser, and [run_script] is lines
    279-280 with the exit status of the process.  Error messages, which
    go to stderr, and the help text's layout are not modelled. *)

From S2P Require Import Prelude PyRuntime Numpy Templates Preprocess Matcher Solver Driver Login Marks.
Local Open Scope py_scope.

Inductive cli_opt : Type := OptHelp | OptUsername | OptPassword | OptSemester | OptOutput.

#[export] Instance cli_opt_eq_dec : EqDecision cli_opt.
Proof. solve_decision. Defined.

(** The option strings of the parser, in the order argparse registers
    them ([-h/--help] first). *)
Definition option_strings : list (string * cli_opt) :=
  [("-h", OptHelp); ("--help", OptHelp); ("--username", OptUsername);
   ("--password", OptPassword); ("--semester", OptSemester); ("--output", OptOutput)].

(** The kind of one argument: a value, the separator ["--"], or an
    option ([None] when no option matches) with its explicit value. *)
Inductive arg_token : Type :=
  | TArg
  | TSep
  | TOpt (matched : option (string * cli_opt)) (explicit : option string).

(** ** String helpers *)

Definition dash : ascii := "-"%char.

(** [option_string in self._option_string_actions] *)
Fixpoint assoc_option (names : list (string * cli_opt)) (s : string) : option cli_opt :=
  match names with
  | [] => None
  | (n, o) :: names' => if bool_decide (n = s) then Some o else assoc_option names' s
  end.

(** [s.split(c, 1)] when [c] occurs in [s]. *)
Fixpoint split_at (c : ascii) (s : string) : option (string * string) :=
  match s with
  | EmptyString => None
  | String c' s' =>
      if bool_decide (c' = c) then Some (EmptyString, s')
      else (λ '(p, e), (String c' p, e)) <$> split_at c s'
  end.

Fixpoint has_char (c : ascii) (s : string) : bool :=
  match s with
  | EmptyString => false
  | String c' s' => bool_decide (c' = c) || has_char c s'
  end.

Fixpoint only_char (c : ascii) (s : string) : bool :=
  match s with
  | EmptyString => true
  | String c' s' => bool_decide (c' = c) && only_char c s'
  end.

Definition is_digit (c : ascii) : bool :=
  bool_decide (48 ≤ Ascii.nat_of_ascii c ≤ 57)%nat.

Fixpoint all_digits (s : string) : bool :=
  match s with
  | EmptyString => true
  | String c s' => is_digit c && all_digits s'
  end.

Definition digits1 (s : string) : bool := bool_decide (s ≠ EmptyString) && all_digits s.

(** [_negative_number_matcher]: ['^-\d+$|^-\d*\.\d+$'] (ASCII digits). *)
Definition negative_number (s : string) : bool :=
  match s with
  | String c r =>
      bool_decide (c = dash) &&
      (digits1 r || match split_at "."%char r with
                    | Some (d1, d2) => all_digits d1 && digits1 d2
                    | None => false
                    end)
  | EmptyString => false
  end.

(** The second character of a string starting with ['-'] is ['-']. *)
Definition double_dash (s : string) : bool :=
  match s with
  | String c1 (String c2 _) => bool_decide (c1 = dash) && bool_decide (c2 = dash)
  | _ => false
  end.

(** [_get_option_tuples(s)] for [s] starting with ['-']. *)
Definition option_tuples (s : string) : list (string * cli_opt * option string) :=
  if double_dash s then
    let '(prefix, explicit) :=
      match split_at "="%char s with Some (p, e) => (p, Some e) | None => (s, None) end in
    (λ no, (no.1, no.2, explicit)) <$> filter (λ no, String.prefix prefix no.1 = true) option_strings
  else
    let short := String.substring 0 2 s in
    let short_explicit := String.substring 2 (String.length s) s in
    option_strings ≫= (λ no,
      if bool_decide (no.1 = short) then [(no.1, no.2, Some short_explicit)]
      else if String.prefix s no.1 then [(no.1, no.2, None)] else []).

(** ** The parser *)

(** [_parse_optional(s)]: [None] is the ambiguous-option error. *)
Definition classify_arg (s : string) : option arg_token :=
  match s with
  | EmptyString => Some TArg
  | String c _ =>
      if bool_decide (c ≠ dash) then Some TArg else
      match assoc_option option_strings s with
      | Some o => Some (TOpt (Some (s, o)) None)
      | None =>
          if bool_decide (String.length s = 1%nat) then Some TArg else
          match split_at "="%char s ≫= (λ '(p, e), (λ o, (p, o, e)) <$> assoc_option option_strings p) with
          | Some (p, o, e) => Some (TOpt (Some (p, o)) (Some e))
          | None =>
              match option_tuples s with
              | [(n, o, e)] => Some (TOpt (Some (n, o)) e)
              | _ :: _ :: _ => None
              | [] =>
                  if negative_number s || has_char " "%char s then Some TArg
                  else Some (TOpt None None)
              end
          end
      end
  end.

(** The loop of [_parse_known_args] that builds the pattern of the
    arguments: after ["--"] every argument is a value. *)
Fixpoint classify (argv : list string) : option (list (string * arg_token)) :=
  match argv with
  | [] => Some []
  | s :: argv' =>
      if bool_decide (s = "--") then Some ((s, TSep) :: map (λ a, (a, TArg)) argv')
      else t ← classify_arg s; toks ← classify argv'; Some ((s, t) :: toks)
  end.

(** The namespace [parse_args] fills in; absent options are [None]. *)
Record namespace : Type := MkNamespace {
  ns_username : option string;
  ns_password : option string;
  ns_semester : option string;
  ns_output : option string
}.

Definition empty_namespace : namespace := MkNamespace None None None None.

(** The [store] action of an option. *)
Definition ns_store (o : cli_opt) (v : string) (ns : namespace) : namespace :=
  match o with
  | OptUsername => MkNamespace (Some v) (ns_password ns) (ns_semester ns) (ns_output ns)
  | OptPassword => MkNamespace (ns_username ns) (Some v) (ns_semester ns) (ns_output ns)
  | OptSemester => MkNamespace (ns_username ns) (ns_password ns) (Some v) (ns_output ns)
  | OptOutput => MkNamespace (ns_username ns) (ns_password ns) (ns_semester ns) (Some v)
  | OptHelp => ns
  end.

Inductive parse_outcome : Type :=
  | ParsedArgs (args : cli_args)
  | ParseHelp
  | ParseError.

(** [-h] with the characters [e] after it: more [-h] flags when every
    character is ['h'], otherwise "ignored explicit argument". *)
Definition help_flags (e : string) : bool :=
  bool_decide (e ≠ EmptyString) && only_char "h"%char e.

(** The end of [_parse_known_args] and [parse_args]: the required options,
    then the extras. *)
Definition finish (ns : namespace) (extras : bool) : parse_outcome :=
  match ns_username ns, ns_password ns with
  | Some u, Some p =>
      if extras then ParseError else ParsedArgs (MkArgs u p (ns_semester ns) (ns_output ns))
  | _, _ => ParseError
  end.

(** [consume_optional] and the extras, left to right. *)
Fixpoint consume (toks : list (string * arg_token)) (ns : namespace) (extras : bool) : parse_outcome :=
  match toks with
  | [] => finish ns extras
  | (_, TOpt (Some (n, OptHelp)) e) :: _ =>
      match e with
      | None => ParseHelp
      | Some e =>
          if bool_decide (String.get 1 n ≠ Some dash) && help_flags e then ParseHelp else ParseError
      end
  | (_, TOpt (Some (_, o)) (Some v)) :: toks' => consume toks' (ns_store o v ns) extras
  | (_, TOpt (Some (_, o)) None) :: (v, TArg) :: toks' => consume toks' (ns_store o v ns) extras
  | (_, TOpt (Some _) None) :: _ => ParseError
  | (_, _) :: toks' => consume toks' ns true
  end.

(** [parser.parse_args(argv)] (lines 247-253). *)
Definition parse_args (argv : list string) : parse_outcome :=
  match classify argv with
  | Some toks => consume toks empty_namespace false
  | None => ParseError
  end.

(** The exit status of the interpreter for the outcome of the script:
    [SystemExit(c)] gives [c], any other uncaught exception 1, a normal
    end 0. *)
Definition exit_status (r : res unit) : Z :=
  match r with
  | Ok _ => 0
  | Err (SystemExit c) => c
  | Err _ => 1
  end.

Section Script.
Context `{C : ImageCodec} {D : Type} `{Dr : Driver D}.
Variable json_dump : list subject_data → list Byte.byte.
(** The help text argparse formats from lines 247-251. *)
Variable help_text : string.

(** [main] (lines 246-277) with its parser: [-h] prints the help and
    exits with status 0 ([parser.exit()]), a parse error exits with
    status 2 ([parser.error]). *)
Definition main_argv (argv : list string) : SE (app_state D) unit :=
  match parse_args argv with
  | ParseHelp => print_lines [help_text] ;; se_raise (SystemExit 0)
  | ParseError => se_raise (SystemExit 2)
  | ParsedArgs args => main json_dump args
  end.

(** Lines 279-280: [if __name__ == "__main__": main()] run on
    [sys.argv[1:]], with the process's exit status. *)
Definition run_script (argv : list string) (s : app_state D) : app_state D * Z :=
  let '(s', r) := main_argv argv s in (s', exit_status r).
End Script.

(** ** Printing a command line *)

(** The command line of [args], each option followed by its value. *)
Definition to_argv (a : cli_args) : list string :=
  ["--username"; arg_username a; "--password"; arg_password a] ++
  default [] ((λ v, ["--semester"; v]) <$> arg_semester a) ++
  default [] ((λ v, ["--output"; v]) <$> arg_output a).

(** The same with [--option=value] arguments. *)
Definition to_argv_eq (a : cli_args) : list string :=
  ["--username=" +:+ arg_username a; "--password=" +:+ arg_password a] ++
  default [] ((λ v, ["--semester=" +:+ v]) <$> arg_semester a) ++
  default [] ((λ v, ["--output=" +:+ v]) <$> arg_output a).

(** The values of [args], as they appear on its command line. *)
Definition arg_values (a : cli_args) : list string :=
  [arg_username a; arg_password a] ++ default [] ((λ v, [v]) <$> arg_semester a) ++
  default [] ((λ v, [v]) <$> arg_output a).

(** * Lemmas *)

Lemma classify_cons s rest :
  classify (s :: rest) =
    if bool_decide (s = "--") then Some ((s, TSep) :: map (λ a, (a, TArg)) rest)
    else t ← classify_arg s; toks ← classify rest; Some ((s, t) :: toks).
Proof. done. Qed.

(** An argument not starting with ['-'] is a value. *)
Lemma classify_plain v rest :
  String.get 0 v ≠ Some dash → classify (v :: rest) = (toks ← classify rest; Some ((v, TArg) :: toks)).
Proof.
  intros Hv. rewrite classify_cons. destruct v as [|c v]; [done|]. simpl in Hv.
  assert (c ≠ dash) as Hc by congruence. simpl.
  rewrite bool_decide_false by (intros [= ->]; by apply Hc).
  by rewrite bool_decide_true by done.
Qed.

(** A store option followed by a value. *)
Lemma classify_option_value name o v rest :
  name ≠ "--" → classify_arg name = Some (TOpt (Some (name, o)) None) → String.get 0 v ≠ Some dash →
  classify (name :: v :: rest) =
    (toks ← classify rest; Some ((name, TOpt (Some (name, o)) None) :: (v, TArg) :: toks)).
Proof.
  intros Hn Ha Hv. rewrite classify_cons, bool_decide_false, Ha by done.
  rewrite classify_plain by done. simpl. by destruct (classify rest).
Qed.

(** ** Properties *)

(** C22: the [--option=value] command line of any arguments parses back
    to exactly those arguments, whatever their values (a value starting
    with ['-'], an empty one, one containing ['='] or a space). *)
Theorem parse_args_roundtrip_eq a : parse_args (to_argv_eq a) = ParsedArgs a.
Proof. destruct a as [u p [sem|] [out|]]; reflexivity. Qed.

(** C23: the command line that gives each option its value as the next
    argument parses back to the same arguments, provided no value starts
    with ['-']. *)
Theorem parse_args_roundtrip a :
  Forall (λ v, String.get 0 v ≠ Some dash) (arg_values a) → parse_args (to_argv a) = ParsedArgs a.
Proof.
  destruct a as [u p [sem|] [out|]]; unfold arg_values, to_argv, parse_args; cbn -[classify]; intros Hv;
    repeat match goal with H : Forall _ (_ :: _) |- _ => apply Forall_cons in H as [? H] end;
    repeat rewrite (classify_option_value _ _ _ _) by first [discriminate | reflexivity | assumption];
    reflexivity.
Qed.

Lemma parse_args_roundtrip_witness :
  Forall (λ v, String.get 0 v ≠ Some dash) (arg_values (MkArgs "student" "secret" (Some "5") None)) ∧
  parse_args (to_argv (MkArgs "student" "secret" (Some "5") None)) = ParsedArgs (MkArgs "student" "secret" (Some "5") None).
Proof.
  assert (Forall (λ v, String.get 0 v ≠ Some dash) (arg_values (MkArgs "student" "secret" (Some "5") None))) as H.
  { repeat constructor; discriminate. }
  split; [exact H|]. apply parse_args_roundtrip. exact H.
Defined.


(** Scenario: a value starting with ['-'] (and neither a negative number nor
    containing a space) cannot follow its option as a separate argument:
    argparse takes it for an option and the script exits with status 2,
    while the [--password=-secret] form is accepted. *)
Example parse_args_dash_value :
  parse_args ["--username"; "student"; "--password"; "-secret"] = ParseError ∧
  parse_args ["--username"; "student"; "--password=-secret"] = ParsedArgs (MkArgs "student" "-secret" None None) ∧
  parse_args ["--username"; "student"; "--password"; "-42"] = ParsedArgs (MkArgs "student" "-42" None None).
Proof. vm_compute. split_and!; reflexivity. Qed.
